(** * User service: registration, login and bearer tokens

    A shallow embedding of [services/user-service/src/app.py] and the
    properties of its registry, its password hashing and its tokens.

    Conventions of the embedding.
    - A user of [users_db] is a [gmap string pyval]; [d[k]] is [getitem],
      which raises [KeyError] on a missing key.  The payload of a token is
      a [claims], an association list in insertion order, because the
      order of its keys is part of what gets signed.
    - The module-level list [users_db] is threaded explicitly: an endpoint
      that mutates it returns the new list next to its outcome.
    - [datetime.utcnow()] and [bcrypt.gensalt()] read the clock and the
      random source; their results are arguments ([now], [salt]).  A
      [datetime] is a number of microseconds since the epoch and a
      [timedelta] a number of microseconds, the resolution of both types.
    - A Python [str] is a [string] holding its UTF-8 encoding, so
      [s.encode('utf-8')] only changes the carrier to a list of bytes.
    - [bcrypt] and [jwt] are external libraries: they are interfaces
      ([Bcrypt], [PyJWT]) that carry the part of their contract the
      service relies on.  [ToyBcrypt] and [ToyJWT] at the end of the
      definitions are executable instances, used to run the endpoints on
      concrete requests. *)

From Stdlib Require Import ZArith List.
From Stdlib.Strings Require Import String Ascii Byte.
From stdpp Require Import gmap strings list fin_maps finite vector.

(** ** Python values and dictionaries *)

Definition bytes := list byte.
Definition datetime := Z.
Definition timedelta := Z.

(** One second, in microseconds. *)
Definition second : Z := 1000000.

Inductive pyval :=
| VNone
| VInt (n : Z)
| VStr (s : string)
| VBytes (b : bytes)
| VBool (b : bool)
| VDatetime (t : datetime).

#[global] Instance byte_eq_dec : EqDecision byte := Byte.byte_eq_dec.
#[global] Instance pyval_eq_dec : EqDecision pyval.
Proof. unfold bytes, datetime. solve_decision. Defined.

Abbreviation dict := (gmap string pyval).

(** A dictionary display [{k1: v1, ...}]. *)
Definition dict_of (items : list (string * pyval)) : dict := list_to_map items.

(** A dictionary whose key order matters: its items in insertion order. *)
Definition claims := list (string * pyval).

(** [d.get(k)] on a [claims]: [None] when the key is missing. *)
Fixpoint claims_get (d : claims) (k : string) : pyval :=
  match d with
  | [] => VNone
  | (k', v) :: rest => if decide (k' = k) then v else claims_get rest k
  end.

(** [d.update({k: v})] on a [claims]: a key that is present keeps its
    place and takes the new value, a new key goes to the end. *)
Fixpoint claims_update (k : string) (v : pyval) (d : claims) : claims :=
  match d with
  | [] => [(k, v)]
  | (k', v') :: rest =>
      if decide (k' = k) then (k, v) :: rest
      else (k', v') :: claims_update k v rest
  end.

(** [a == b].  A [bool] is an [int] in Python, so [True == 1]; every other
    pair of values of different types is unequal. *)
Definition py_eq (a b : pyval) : bool :=
  match a, b with
  | VInt n, VBool c | VBool c, VInt n => bool_decide (n = if c then 1%Z else 0%Z)
  | _, _ => bool_decide (a = b)
  end.

(** ** Exceptions *)

Inductive exn :=
| HTTPException (status_code : Z) (detail : string)
| KeyError (key : string)
| TypeError
| ValueError
| ValidationError.

Inductive outcome (A : Type) :=
| Return (a : A)
| Raise (e : exn).
Arguments Return {A} a.
Arguments Raise {A} e.

#[global] Instance outcome_ret : MRet outcome := @Return.
#[global] Instance outcome_bind : MBind outcome := λ A B f m,
  match m with
  | Return a => f a
  | Raise e => Raise e
  end.

Definition HTTP_400_BAD_REQUEST : Z := 400.
Definition HTTP_401_UNAUTHORIZED : Z := 401.
Definition HTTP_404_NOT_FOUND : Z := 404.

(** [d[k]] *)
Definition getitem (d : dict) (k : string) : outcome pyval :=
  match d !! k with
  | Some v => Return v
  | None => Raise (KeyError k)
  end.

(** [datetime.min] and [datetime.max]: the first microsecond of year 1
    and the last of year 9999. A sum of a [datetime] and a [timedelta]
    outside of them raises [OverflowError]. *)
Definition datetime_min : datetime := (-62135596800 * second)%Z.
Definition datetime_max : datetime := (253402300799 * second + 999999)%Z.

(** [timedelta(minutes=m)] *)
Definition timedelta_minutes (m : Z) : timedelta := (60 * m * second)%Z.

(** [s.encode('utf-8')] *)
Definition encode_utf8 (s : string) : bytes := list_byte_of_string s.

(** ** The pydantic models *)

Module UserCreate.
Record t := mk {
  email : string;
  username : string;
  password : string;
  full_name : string
}.
End UserCreate.

Module UserResponse.
Record t := mk {
  id : Z;
  email : string;
  username : string;
  full_name : string;
  created_at : datetime;
  is_active : bool
}.
End UserResponse.

Module UserLogin.
Record t := mk {
  username : string;
  password : string
}.
End UserLogin.

Definition field_int (kw : dict) (k : string) : outcome Z :=
  match kw !! k with Some (VInt n) => Return n | _ => Raise ValidationError end.
Definition field_str (kw : dict) (k : string) : outcome string :=
  match kw !! k with Some (VStr s) => Return s | _ => Raise ValidationError end.
Definition field_datetime (kw : dict) (k : string) : outcome datetime :=
  match kw !! k with Some (VDatetime t) => Return t | _ => Raise ValidationError end.
Definition field_bool (kw : dict) (k : string) : outcome bool :=
  match kw !! k with Some (VBool b) => Return b | _ => Raise ValidationError end.

(** The constructor of [UserResponse] on keyword arguments [kw]: the six
    declared fields are read and validated, any other keyword is ignored. *)
Definition UserResponse_init (kw : dict) : outcome UserResponse.t :=
  i ← field_int kw "id";
  e ← field_str kw "email";
  u ← field_str kw "username";
  f ← field_str kw "full_name";
  c ← field_datetime kw "created_at";
  a ← field_bool kw "is_active";
  Return (UserResponse.mk i e u f c a).

(** The fields of a response model, as they are serialised. *)
Definition model_dump (r : UserResponse.t) : dict :=
  dict_of [("id", VInt (UserResponse.id r));
           ("email", VStr (UserResponse.email r));
           ("username", VStr (UserResponse.username r));
           ("full_name", VStr (UserResponse.full_name r));
           ("created_at", VDatetime (UserResponse.created_at r));
           ("is_active", VBool (UserResponse.is_active r))].

(** ** The external libraries *)

(** [bcrypt].  [bcrypt_kdf password salt] is the 60-byte digest bcrypt
    computes for a password of at most 72 bytes under [salt], which is a
    salt that [bcrypt.gensalt()] returned or a digest, whose first bytes
    are the salt it was made with. *)
Class Bcrypt := {
  bcrypt_kdf : bytes → bytes → bytes;
  bcrypt_kdf_salt : ∀ p q salt,
    bcrypt_kdf p (bcrypt_kdf q salt) = bcrypt_kdf p salt;
  bcrypt_kdf_length : ∀ p salt, length (bcrypt_kdf p salt) = 60%nat
}.

(** [bcrypt.hashpw]: a password of more than 72 bytes is refused with
    [ValueError]. *)
Definition bcrypt_hashpw `{!Bcrypt} (password salt : bytes) : outcome bytes :=
  if bool_decide (72 < length password) then Raise ValueError
  else Return (bcrypt_kdf password salt).

(** [bcrypt.checkpw]: the candidate is hashed under the salt of the
    digest and the result compared with the digest. *)
Definition bcrypt_checkpw `{!Bcrypt} (password hashed_password : bytes) : outcome bool :=
  ret ← bcrypt_hashpw password hashed_password;
  Return (bool_decide (ret = hashed_password)).

(** [jwt] (PyJWT).  [jwt_encode payload key algorithm] is [jwt.encode] and
    [jwt_decode token key algorithms now] is [jwt.decode] run when the
    clock reads [now]; the exceptions listed are subclasses of
    [jwt.PyJWTError].

    [jwt.encode] writes a [datetime] under ["exp"], ["iat"] or ["nbf"] as
    a whole number of seconds, cutting the microseconds off
    ([claims_json]).  [jwt.decode] returns nothing but the claims that
    were signed, and only while the clock is before the ["exp"] second
    ([jwt_decode_sound]).  For a payload it has no other reason to refuse
    ([plain_payload]: distinct keys, a string ["sub"], no other
    registered claim, JSON values) it returns the claims until then and
    raises [ExpiredSignatureError] from then on ([jwt_decode_plain]). *)
Inductive PyJWTError :=
| ExpiredSignatureError
| InvalidSignatureError
| InvalidAlgorithmError
| InvalidTokenError
| DecodeError.

Definition ALGORITHM : string := "HS256".

Definition time_claims : list string := ["exp"; "iat"; "nbf"].
Definition registered_claims : list string :=
  ["iss"; "sub"; "aud"; "exp"; "nbf"; "iat"; "jti"].

Definition claim_json (kv : string * pyval) : string * pyval :=
  match kv.2 with
  | VDatetime t =>
      if bool_decide (kv.1 ∈ time_claims) then (kv.1, VInt (t / second)) else kv
  | _ => kv
  end.

Definition claims_json (payload : claims) : claims := claim_json <$> payload.

Definition json_scalar (v : pyval) : bool :=
  match v with
  | VNone | VInt _ | VStr _ | VBool _ => true
  | VBytes _ | VDatetime _ => false
  end.

Definition plain_entry (kv : string * pyval) : bool :=
  if decide (kv.1 = "exp") then match kv.2 with VDatetime _ => true | _ => false end
  else if decide (kv.1 = "sub") then match kv.2 with VStr _ => true | _ => false end
  else bool_decide (kv.1 ∉ registered_claims) && json_scalar kv.2.

Definition plain_payload (payload : claims) : bool :=
  bool_decide (NoDup payload.*1) && forallb plain_entry payload.

(** Data that [create_access_token] turns into a plain payload: an
    ["exp"] entry may hold anything, it is overwritten. *)
Definition plain_data (data : claims) : bool :=
  bool_decide (NoDup data.*1)
  && forallb (λ kv, bool_decide (kv.1 = "exp") || plain_entry kv) data.

(** The clock has reached the second of expiry [exp]. *)
Definition expired (exp now : datetime) : bool :=
  bool_decide (exp / second * second ≤ now)%Z.

Class PyJWT := {
  JWT : Type;
  jwt_encode : claims → string → string → JWT;
  jwt_decode : JWT → string → list string → datetime → PyJWTError + claims;
  jwt_decode_sound : ∀ payload key alg algs now decoded,
    jwt_decode (jwt_encode payload key alg) key algs now = inr decoded →
    decoded = claims_json payload
    ∧ ∀ exp, claims_get payload "exp" = VDatetime exp → expired exp now = false;
  jwt_decode_plain : ∀ payload key algs exp now,
    ALGORITHM ∈ algs →
    plain_payload payload = true →
    claims_get payload "exp" = VDatetime exp →
    jwt_decode (jwt_encode payload key ALGORITHM) key algs now
    = if expired exp now then inl ExpiredSignatureError
      else inr (claims_json payload)
}.

(** ** The service *)

(** [{k: v for k, v in user.items() if k != "hashed_password"}] *)
Definition public_fields (user : dict) : dict :=
  filter (λ kv, kv.1 ≠ "hashed_password") user.

(** [not user], for a [user] that is [None] or a dictionary. *)
Definition not_user (user : option dict) : bool :=
  match user with
  | None => true
  | Some u => bool_decide (u = ∅)
  end.

(** The loop of [register_user]. *)
Fixpoint check_existing (users_db : list dict) (user : UserCreate.t) : outcome () :=
  match users_db with
  | [] => Return ()
  | existing_user :: rest =>
      e ← getitem existing_user "email";
      if py_eq e (VStr (UserCreate.email user))
      then Raise (HTTPException HTTP_400_BAD_REQUEST "User already exists")
      else
        u ← getitem existing_user "username";
        if py_eq u (VStr (UserCreate.username user))
        then Raise (HTTPException HTTP_400_BAD_REQUEST "User already exists")
        else check_existing rest user
  end.

(** The loop of [login] and of [get_current_user]: the first user whose
    ["username"] equals [name], [None] when the loop ends without a match. *)
Fixpoint find_user (users_db : list dict) (name : pyval) : outcome (option dict) :=
  match users_db with
  | [] => Return None
  | u :: rest =>
      v ← getitem u "username";
      if py_eq v name then Return (Some u) else find_user rest name
  end.

Section Service.
Context `{!Bcrypt, !PyJWT}.
Variable SECRET_KEY : string.

Record Token := mkToken {
  access_token : JWT;
  token_type : string
}.

(** The mock database at start-up; [salt0] and [t0] are what
    [bcrypt.gensalt()] and [datetime.utcnow()] returned at import.  The
    verifier is what [bcrypt.hashpw] returns for the eight bytes of
    "admin123" ([users_db_hashpw]). *)
Definition users_db (salt0 : bytes) (t0 : datetime) : list dict :=
  [dict_of [("id", VInt 1);
            ("email", VStr "admin@example.com");
            ("username", VStr "admin");
            ("full_name", VStr "System Administrator");
            ("hashed_password", VBytes (bcrypt_kdf (encode_utf8 "admin123") salt0));
            ("created_at", VDatetime t0);
            ("is_active", VBool true)]].

Definition hash_password (password : string) (salt : bytes) : outcome bytes :=
  bcrypt_hashpw (encode_utf8 password) salt.

Definition verify_password (password : string) (hashed_password : bytes) : outcome bool :=
  bcrypt_checkpw (encode_utf8 password) hashed_password.

(** [expire] in [create_access_token]: a delta that is [None] or zero is
    falsy and takes the [else] branch. *)
Definition expire_at (expires_delta : option timedelta) (now : datetime) : datetime :=
  match expires_delta with
  | Some d => if bool_decide (d ≠ 0%Z) then (now + d)%Z
              else (now + timedelta_minutes 15)%Z
  | None => (now + timedelta_minutes 15)%Z
  end.

Definition create_access_token (data : claims) (expires_delta : option timedelta)
    (now : datetime) : JWT :=
  let to_encode := data in
  let expire := expire_at expires_delta now in
  let to_encode := claims_update "exp" (VDatetime expire) to_encode in
  jwt_encode to_encode SECRET_KEY ALGORITHM.

Definition verify_token (credentials : JWT) (now : datetime) : outcome pyval :=
  match jwt_decode credentials SECRET_KEY [ALGORITHM] now with
  | inr payload =>
      let username := claims_get payload "sub" in
      if bool_decide (username = VNone)
      then Raise (HTTPException HTTP_401_UNAUTHORIZED "Could not validate credentials")
      else Return username
  | inl _ =>
      Raise (HTTPException HTTP_401_UNAUTHORIZED "Could not validate credentials")
  end.

(** The dictionary [new_user] of [register_user], [hashed] being what
    [hash_password] returned. *)
Definition new_user_of (users_db : list dict) (user : UserCreate.t)
    (hashed : bytes) (now : datetime) : dict :=
  dict_of [("id", VInt (Z.of_nat (length users_db) + 1));
           ("email", VStr (UserCreate.email user));
           ("username", VStr (UserCreate.username user));
           ("full_name", VStr (UserCreate.full_name user));
           ("hashed_password", VBytes hashed);
           ("created_at", VDatetime now);
           ("is_active", VBool true)].

(** POST /register.  The second component is [users_db] afterwards; an
    exception of [hash_password] leaves the display of [new_user] before
    anything is appended. *)
Definition register_user (users_db : list dict) (user : UserCreate.t)
    (now : datetime) (salt : bytes) : outcome UserResponse.t * list dict :=
  match check_existing users_db user with
  | Raise e => (Raise e, users_db)
  | Return _ =>
      match hash_password (UserCreate.password user) salt with
      | Raise e => (Raise e, users_db)
      | Return hashed =>
          let new_user := new_user_of users_db user hashed now in
          let users_db := users_db ++ [new_user] in
          (UserResponse_init (public_fields new_user), users_db)
      end
  end.

(** POST /login *)
Definition login (users_db : list dict) (user_credentials : UserLogin.t)
    (now : datetime) : outcome Token :=
  user ← find_user users_db (VStr (UserLogin.username user_credentials));
  let unauthorized : outcome Token :=
    Raise (HTTPException HTTP_401_UNAUTHORIZED "Incorrect username or password") in
  match user with
  | Some u =>
      if not_user user then unauthorized
      else
        h ← getitem u "hashed_password";
        match h with
        | VBytes hashed =>
            ok ← verify_password (UserLogin.password user_credentials) hashed;
            if ok : bool
            then
              name ← getitem u "username";
              let access_token_expires := timedelta_minutes 30 in
              let access_token :=
                create_access_token [("sub", name)] (Some access_token_expires) now in
              Return (mkToken access_token "bearer")
            else unauthorized
        | _ => Raise TypeError
        end
  | None => unauthorized
  end.

(** GET /users/me, after the [verify_token] dependency. *)
Definition get_current_user (users_db : list dict) (current_username : pyval)
    : outcome UserResponse.t :=
  user ← find_user users_db current_username;
  match user with
  | Some u =>
      if not_user user
      then Raise (HTTPException HTTP_404_NOT_FOUND "User not found")
      else UserResponse_init (public_fields u)
  | None => Raise (HTTPException HTTP_404_NOT_FOUND "User not found")
  end.

(** GET /users, after the [verify_token] dependency. *)
Definition list_users (users_db : list dict) (current_username : pyval)
    : outcome (list UserResponse.t) :=
  mapM (λ user, UserResponse_init (public_fields user)) users_db.

(** The two authenticated routes with their dependency resolved. *)
Definition users_me (users_db : list dict) (credentials : JWT) (now : datetime)
    : outcome UserResponse.t :=
  current_username ← verify_token credentials now;
  get_current_user users_db current_username.

Definition users_list (users_db : list dict) (credentials : JWT) (now : datetime)
    : outcome (list UserResponse.t) :=
  current_username ← verify_token credentials now;
  list_users users_db current_username.

(** The registry states the service can be in: the start-up state and
    whatever a call of [register_user] leaves behind. *)
Inductive reachable (salt0 : bytes) (t0 : datetime) : list dict → Prop :=
| reachable_init : reachable salt0 t0 (users_db salt0 t0)
| reachable_register db user now salt :
    reachable salt0 t0 db →
    reachable salt0 t0 (register_user db user now salt).2.

End Service.

(** The registry after serving the registration requests in order, each
    with the clock reading and the salt of its call. *)
Fixpoint register_all `{!Bcrypt} (users_db : list dict)
    (requests : list (UserCreate.t * datetime * bytes)) : list dict :=
  match requests with
  | [] => users_db
  | (user, now, salt) :: rest =>
      register_all (register_user users_db user now salt).2 rest
  end.

(** ** Executable instances of the library interfaces *)

(** [l] cut or zero-filled to [n] bytes. *)
Definition pad (n : nat) (l : bytes) : bytes := take n (l ++ replicate n x00).

(** A stand-in for bcrypt with the layout of its digests: 29 bytes that
    carry the salt, then 31 bytes computed from the password (here its
    first 31 bytes). *)
Definition toy_kdf (password salt : bytes) : bytes := pad 29 salt ++ pad 31 password.

(** A stand-in for PyJWT whose tokens are unsigned triples. *)
Definition toy_encode (payload : claims) (key alg : string) : claims * string * string :=
  (payload, key, alg).
Definition toy_decode (token : claims * string * string) (key : string)
    (algorithms : list string) (now : datetime) : PyJWTError + claims :=
  let '(payload, k, alg) := token in
  if bool_decide (k ≠ key) then inl InvalidSignatureError
  else if bool_decide (alg ∉ algorithms) then inl InvalidAlgorithmError
  else match claims_get payload "exp" with
       | VDatetime exp =>
           if expired exp now then inl ExpiredSignatureError
           else inr (claims_json payload)
       | _ => inr (claims_json payload)
       end.

Lemma pad_length n l : length (pad n l) = n.
Proof.
  unfold pad. rewrite length_take, length_app, length_replicate. lia.
Qed.

Lemma pad_pad n l k : pad n (pad n l ++ k) = pad n l.
Proof.
  unfold pad at 1. rewrite <- app_assoc.
  rewrite take_app_length' by (symmetry; apply pad_length). reflexivity.
Qed.

Lemma toy_kdf_salt p q salt : toy_kdf p (toy_kdf q salt) = toy_kdf p salt.
Proof. unfold toy_kdf. rewrite pad_pad. reflexivity. Qed.

Lemma toy_kdf_length p salt : length (toy_kdf p salt) = 60%nat.
Proof. unfold toy_kdf. rewrite length_app, !pad_length. reflexivity. Qed.

Lemma toy_decode_sound payload key alg algs now decoded :
  toy_decode (toy_encode payload key alg) key algs now = inr decoded →
  decoded = claims_json payload
  ∧ ∀ exp, claims_get payload "exp" = VDatetime exp → expired exp now = false.
Proof.
  unfold toy_decode, toy_encode.
  case_bool_decide; [discriminate|]. case_bool_decide; [discriminate|].
  destruct (claims_get payload "exp") as [| | | | |e] eqn:He;
    try (intros [= <-]; split; [reflexivity|intros exp [=]]).
  destruct (expired e now) eqn:Hexp; [discriminate|].
  intros [= <-]. split; [reflexivity|]. intros exp [= <-]. exact Hexp.
Qed.

Lemma toy_decode_plain payload key algs exp now :
  ALGORITHM ∈ algs →
  plain_payload payload = true →
  claims_get payload "exp" = VDatetime exp →
  toy_decode (toy_encode payload key ALGORITHM) key algs now
  = if expired exp now then inl ExpiredSignatureError
    else inr (claims_json payload).
Proof.
  intros Halg _ Hexp. unfold toy_decode, toy_encode.
  rewrite bool_decide_eq_false_2 by (intros Hk; apply Hk; reflexivity).
  rewrite bool_decide_eq_false_2 by (intros Hn; apply Hn, Halg).
  rewrite Hexp. reflexivity.
Qed.

Definition ToyBcrypt : Bcrypt := {|
  bcrypt_kdf := toy_kdf;
  bcrypt_kdf_salt := toy_kdf_salt;
  bcrypt_kdf_length := toy_kdf_length
|}.

Definition ToyJWT : PyJWT := {|
  JWT := claims * string * string;
  jwt_encode := toy_encode;
  jwt_decode := toy_decode;
  jwt_decode_sound := toy_decode_sound;
  jwt_decode_plain := toy_decode_plain
|}.

Definition alice : UserCreate.t := UserCreate.mk "a@x.com" "alice" "pw123" "Alice".

(** The start-up registry, with an empty salt and the clock at 0, after
    alice's registration. *)
Definition db_alice : list dict :=
  (@register_user ToyBcrypt (@users_db ToyBcrypt [] 0%Z) alice 5%Z []).2.

(** The key used when the environment sets no [JWT_SECRET_KEY]. *)
Definition DEFAULT_SECRET_KEY : string := "your-secret-key-change-in-production".

(** ** The data model of the registry *)

(** The dictionary of a principal: the seven keys, each with a value of
    its type. *)
Definition principal_dict (i : Z) (e n f : string) (h : bytes) (c : datetime)
    (a : bool) : dict :=
  dict_of [("id", VInt i); ("email", VStr e); ("username", VStr n);
           ("full_name", VStr f); ("hashed_password", VBytes h);
           ("created_at", VDatetime c); ("is_active", VBool a)].

Definition is_principal (u : dict) : Prop :=
  ∃ i e n f h c a, u = principal_dict i e n f h c a.

(** No two entries of [db] carry the same value under key [k]. *)
Definition unique_on (k : string) (db : list dict) : Prop :=
  ∀ i j u v, db !! i = Some u → db !! j = Some v →
    getitem u k = getitem v k → i = j.

(** What holds of the registry throughout: every entry is a principal, and
    emails and usernames do not repeat. *)
Definition registry_inv (db : list dict) : Prop :=
  Forall is_principal db
  ∧ NoDup ((.!! "email") <$> db)
  ∧ NoDup ((.!! "username") <$> db).

(** [u] has the email or the username of the candidate [user]. *)
Definition collides (user : UserCreate.t) (u : dict) : Prop :=
  u !! "email" = Some (VStr (UserCreate.email user))
  ∨ u !! "username" = Some (VStr (UserCreate.username user)).

#[global] Instance collides_dec user u : Decision (collides user u).
Proof. unfold collides. apply _. Defined.

(** ** Counting secrets and digests *)

(** The byte of code [i], for [i] below 256. *)
Definition byte_of_nat (i : nat) : byte := default x00 (Byte.of_nat i).


(** ** Values, dictionaries and the two loops *)

Lemma py_eq_str_r v s : py_eq v (VStr s) = bool_decide (v = VStr s).
Proof. destruct v; reflexivity. Qed.

Lemma py_eq_str_l s v : py_eq (VStr s) v = bool_decide (VStr s = v).
Proof. destruct v; reflexivity. Qed.

Lemma getitem_Some (d : dict) k v : d !! k = Some v → getitem d k = Return v.
Proof. unfold getitem. intros ->. reflexivity. Qed.

Lemma getitem_inj (d1 d2 : dict) k :
  is_Some (d1 !! k) → getitem d1 k = getitem d2 k → d1 !! k = d2 !! k.
Proof.
  unfold getitem. intros [v ->]. destruct (d2 !! k); congruence.
Qed.

Lemma principal_email (u : dict) :
  is_principal u → ∃ e, u !! "email" = Some (VStr e).
Proof. intros (i & e & n & f & h & c & a & ->). exists e. reflexivity. Qed.

Lemma principal_username (u : dict) :
  is_principal u → ∃ n, u !! "username" = Some (VStr n).
Proof. intros (i & e & n & f & h & c & a & ->). exists n. reflexivity. Qed.

Lemma principal_hashed_password (u : dict) :
  is_principal u → ∃ h, u !! "hashed_password" = Some (VBytes h).
Proof. intros (i & e & n & f & h & c & a & ->). exists h. reflexivity. Qed.

Lemma principal_nonempty (u : dict) : is_principal u → u ≠ ∅.
Proof.
  intros [e He]%principal_email ->. rewrite lookup_empty in He. discriminate.
Qed.

(** One round of the loop of [register_user] on a principal. *)
Lemma check_existing_cons u rest user :
  is_principal u →
  check_existing (u :: rest) user
  = if decide (collides user u)
    then Raise (HTTPException HTTP_400_BAD_REQUEST "User already exists")
    else check_existing rest user.
Proof.
  intros Hu. destruct (principal_email u Hu) as [e He].
  destruct (principal_username u Hu) as [n Hn].
  cbn [check_existing]. rewrite (getitem_Some _ _ _ He), (getitem_Some _ _ _ Hn).
  cbn [mbind outcome_bind]. rewrite !py_eq_str_r.
  destruct (decide (collides user u)) as [[Hc|Hc]|Hno].
  - rewrite He in Hc. rewrite bool_decide_eq_true_2 by congruence. reflexivity.
  - rewrite Hn in Hc. rewrite (bool_decide_eq_true_2 (VStr n = _)) by congruence.
    case_bool_decide; reflexivity.
  - rewrite !bool_decide_eq_false_2; [reflexivity| |];
      intros Heq; apply Hno; [right|left]; congruence.
Qed.

Lemma check_existing_collision db user :
  Forall is_principal db →
  (∃ u, u ∈ db ∧ collides user u) →
  check_existing db user
  = Raise (HTTPException HTTP_400_BAD_REQUEST "User already exists").
Proof.
  induction 1 as [|u rest Hu Hrest IH]; intros (w & Hw & Hc).
  - inversion Hw.
  - rewrite check_existing_cons by assumption.
    destruct (decide (collides user u)) as [|Hno]; [reflexivity|].
    apply IH. exists w. split; [|assumption].
    apply elem_of_cons in Hw as [->|Hw]; [contradiction|assumption].
Qed.

Lemma check_existing_fresh db user :
  Forall is_principal db →
  (∀ u, u ∈ db → ¬ collides user u) →
  check_existing db user = Return ().
Proof.
  induction 1 as [|u rest Hu Hrest IH]; intros Hfresh; [reflexivity|].
  rewrite check_existing_cons by assumption.
  destruct (decide (collides user u)) as [Hc|_].
  - exfalso. apply (Hfresh u); [left|assumption].
  - apply IH. intros w Hw. apply Hfresh. right. assumption.
Qed.

(** The loop passes exactly when no stored principal collides. *)
Lemma check_existing_Return db user :
  Forall is_principal db →
  check_existing db user = Return () →
  ∀ u, u ∈ db → ¬ collides user u.
Proof.
  intros Hdb Hret u Hu Hc.
  rewrite (check_existing_collision db user Hdb) in Hret by eauto.
  discriminate.
Qed.

Lemma check_existing_cases db user :
  Forall is_principal db →
  check_existing db user = Return ()
  ∨ check_existing db user
    = Raise (HTTPException HTTP_400_BAD_REQUEST "User already exists").
Proof.
  induction 1 as [|u rest Hu Hrest IH]; [left; reflexivity|].
  rewrite check_existing_cons by assumption.
  destruct (decide (collides user u)); [right; reflexivity|assumption].
Qed.

(** ** The public projection *)

Lemma public_fields_lookup (user : dict) k :
  public_fields user !! k = if decide (k = "hashed_password") then None else user !! k.
Proof.
  unfold public_fields. destruct (decide (k = "hashed_password")) as [->|Hk].
  - apply map_lookup_filter_None. right. intros v _ Hne. apply Hne. reflexivity.
  - destruct (user !! k) as [v|] eqn:E.
    + apply map_lookup_filter_Some. split; [assumption|exact Hk].
    + apply map_lookup_filter_None. left. assumption.
Qed.

Lemma public_fields_delete (user : dict) :
  public_fields user = delete "hashed_password" user.
Proof.
  apply map_eq. intros k. rewrite public_fields_lookup, lookup_delete.
  destruct (decide (k = "hashed_password")) as [->|Hk].
  - rewrite decide_True by reflexivity. reflexivity.
  - rewrite decide_False by congruence. reflexivity.
Qed.

Lemma public_fields_no_verifier (user : dict) :
  public_fields user !! "hashed_password" = None.
Proof. rewrite public_fields_lookup. reflexivity. Qed.

Lemma model_dump_no_verifier r : model_dump r !! "hashed_password" = None.
Proof. reflexivity. Qed.

(** The response built from a principal carries its six public fields. *)
Lemma UserResponse_init_principal i e n f h c a :
  UserResponse_init (public_fields (principal_dict i e n f h c a))
  = Return (UserResponse.mk i e n f c a).
Proof.
  unfold UserResponse_init, field_int, field_str, field_datetime, field_bool.
  rewrite !public_fields_lookup. reflexivity.
Qed.

(** What is serialised is the stored dictionary without the verifier. *)
Lemma model_dump_principal i e n f h c a :
  model_dump (UserResponse.mk i e n f c a)
  = delete "hashed_password" (principal_dict i e n f h c a).
Proof. reflexivity. Qed.

Section Registry.
Context `{!Bcrypt}.

Lemma hash_password_short password salt :
  length (encode_utf8 password) ≤ 72 →
  hash_password password salt = Return (bcrypt_kdf (encode_utf8 password) salt).
Proof.
  intros Hlen. unfold hash_password, bcrypt_hashpw.
  rewrite bool_decide_eq_false_2 by lia. reflexivity.
Qed.

Lemma hash_password_long password salt :
  72 < length (encode_utf8 password) →
  hash_password password salt = Raise ValueError.
Proof.
  intros Hlen. unfold hash_password, bcrypt_hashpw.
  rewrite bool_decide_eq_true_2 by lia. reflexivity.
Qed.

(** At import [bcrypt.hashpw] returns the verifier of the administrator. *)
Lemma users_db_hashpw salt0 :
  hash_password "admin123" salt0
  = Return (bcrypt_kdf (encode_utf8 "admin123") salt0).
Proof. reflexivity. Qed.

Lemma new_user_of_principal db user hashed now :
  new_user_of db user hashed now
  = principal_dict (Z.of_nat (length db) + 1) (UserCreate.email user)
      (UserCreate.username user) (UserCreate.full_name user) hashed now true.
Proof. reflexivity. Qed.

Lemma users_db_principal salt0 t0 :
  users_db salt0 t0
  = [principal_dict 1 "admin@example.com" "admin" "System Administrator"
       (bcrypt_kdf (encode_utf8 "admin123") salt0) t0 true].
Proof. reflexivity. Qed.

Lemma is_principal_new_user db user hashed now :
  is_principal (new_user_of db user hashed now).
Proof. rewrite new_user_of_principal. unfold is_principal. eauto 10. Qed.

(** A registration that the loop rejects changes nothing. *)
Lemma register_user_collision db user now salt :
  Forall is_principal db →
  (∃ u, u ∈ db ∧ collides user u) →
  register_user db user now salt
  = (Raise (HTTPException HTTP_400_BAD_REQUEST "User already exists"), db).
Proof.
  intros Hdb Hc. unfold register_user.
  rewrite check_existing_collision by assumption. reflexivity.
Qed.

(** A registration that the loop lets through, with a password that
    bcrypt takes, appends the new principal and answers with its public
    fields. *)
Lemma register_user_fresh db user now salt :
  check_existing db user = Return () →
  length (encode_utf8 (UserCreate.password user)) ≤ 72 →
  register_user db user now salt
  = (Return (UserResponse.mk (Z.of_nat (length db) + 1) (UserCreate.email user)
               (UserCreate.username user) (UserCreate.full_name user) now true),
     db ++ [new_user_of db user
              (bcrypt_kdf (encode_utf8 (UserCreate.password user)) salt) now]).
Proof.
  intros Hret Hlen. unfold register_user. rewrite Hret.
  rewrite hash_password_short by assumption.
  rewrite new_user_of_principal, UserResponse_init_principal. reflexivity.
Qed.

(** With a longer password [hash_password] raises and nothing is stored. *)
Lemma register_user_long db user now salt :
  check_existing db user = Return () →
  72 < length (encode_utf8 (UserCreate.password user)) →
  register_user db user now salt = (Raise ValueError, db).
Proof.
  intros Hret Hlen. unfold register_user. rewrite Hret.
  rewrite hash_password_long by assumption. reflexivity.
Qed.

Lemma register_user_cases db user now salt :
  Forall is_principal db →
  (check_existing db user = Return ()
   ∧ length (encode_utf8 (UserCreate.password user)) ≤ 72
   ∧ register_user db user now salt
     = (Return (UserResponse.mk (Z.of_nat (length db) + 1) (UserCreate.email user)
                  (UserCreate.username user) (UserCreate.full_name user) now true),
        db ++ [new_user_of db user
                 (bcrypt_kdf (encode_utf8 (UserCreate.password user)) salt) now]))
  ∨ register_user db user now salt
    = (Raise (HTTPException HTTP_400_BAD_REQUEST "User already exists"), db)
  ∨ (check_existing db user = Return ()
     ∧ 72 < length (encode_utf8 (UserCreate.password user))
     ∧ register_user db user now salt = (Raise ValueError, db)).
Proof.
  intros Hdb. destruct (check_existing_cases db user Hdb) as [Hret|Hraise].
  - destruct (decide (length (encode_utf8 (UserCreate.password user)) ≤ 72)) as [Hlen|Hlen].
    + left. repeat split; [assumption..|]. apply register_user_fresh; assumption.
    + right. right. repeat split; [assumption|lia|].
      apply register_user_long; [assumption|lia].
  - right. left. unfold register_user. rewrite Hraise. reflexivity.
Qed.

(** A registration that returns a response has stored the new principal. *)
Lemma register_user_Return db user now salt r db' :
  Forall is_principal db →
  register_user db user now salt = (Return r, db') →
  check_existing db user = Return ()
  ∧ length (encode_utf8 (UserCreate.password user)) ≤ 72
  ∧ r = UserResponse.mk (Z.of_nat (length db) + 1) (UserCreate.email user)
          (UserCreate.username user) (UserCreate.full_name user) now true
  ∧ db' = db ++ [new_user_of db user
                   (bcrypt_kdf (encode_utf8 (UserCreate.password user)) salt) now].
Proof.
  intros Hdb Hreg.
  destruct (register_user_cases db user now salt Hdb)
    as [(Hret & Hlen & Heq)|[Heq|(_ & _ & Heq)]];
    rewrite Heq in Hreg; [|discriminate..].
  injection Hreg as <- <-. repeat split; assumption.
Qed.

Lemma register_user_step db user now salt :
  (register_user db user now salt).2 = db
  ∨ ∃ hashed, (register_user db user now salt).2 = db ++ [new_user_of db user hashed now].
Proof.
  unfold register_user. destruct (check_existing db user); [|left; reflexivity].
  destruct (hash_password _ salt) as [hashed|e]; [right|left; reflexivity].
  exists hashed. reflexivity.
Qed.

Lemma registry_inv_init salt0 t0 : registry_inv (users_db salt0 t0).
Proof.
  rewrite users_db_principal. repeat split.
  - constructor; [|constructor]. unfold is_principal. eauto 10.
  - apply NoDup_singleton.
  - apply NoDup_singleton.
Qed.

Lemma registry_inv_register db user now salt :
  registry_inv db → registry_inv (register_user db user now salt).2.
Proof.
  intros (Hdb & He & Hn).
  destruct (register_user_cases db user now salt Hdb)
    as [(Hret & _ & ->)|[->|(_ & _ & ->)]];
    [|repeat split; assumption..].
  pose proof (check_existing_Return db user Hdb Hret) as Hfresh.
  cbn [snd]. repeat split.
  - apply Forall_app. split; [assumption|].
    constructor; [apply is_principal_new_user|constructor].
  - rewrite fmap_app. apply NoDup_app. split; [assumption|]. split.
    + intros x [u [-> Hu]]%list_elem_of_fmap Hx. cbn in Hx.
      apply list_elem_of_singleton in Hx.
      apply (Hfresh u Hu). left. rewrite Hx. reflexivity.
    + apply NoDup_singleton.
  - rewrite fmap_app. apply NoDup_app. split; [assumption|]. split.
    + intros x [u [-> Hu]]%list_elem_of_fmap Hx. cbn in Hx.
      apply list_elem_of_singleton in Hx.
      apply (Hfresh u Hu). right. rewrite Hx. reflexivity.
    + apply NoDup_singleton.
Qed.

Lemma reachable_inv salt0 t0 db : reachable salt0 t0 db → registry_inv db.
Proof.
  induction 1 as [|db user now salt _ IH].
  - apply registry_inv_init.
  - apply registry_inv_register, IH.
Qed.

Lemma reachable_principals salt0 t0 db :
  reachable salt0 t0 db → Forall is_principal db.
Proof. intros Hr. apply (reachable_inv _ _ _ Hr). Qed.

Lemma registry_inv_unique db k :
  (∀ u, is_principal u → is_Some (u !! k)) →
  Forall is_principal db → NoDup ((.!! k) <$> db) → unique_on k db.
Proof.
  intros Hk Hdb Hnd i j u v Hi Hj Heq.
  assert (is_principal u) as Hu.
  { eapply Forall_forall; [exact Hdb|]. eapply list_elem_of_lookup_2, Hi. }
  apply getitem_inj in Heq; [|apply Hk, Hu].
  eapply NoDup_lookup; [exact Hnd| |].
  - rewrite list_lookup_fmap, Hi. reflexivity.
  - rewrite list_lookup_fmap, Hj. cbn. f_equal. symmetry. exact Heq.
Qed.

(** The registry only grows, at its end. *)
Lemma reachable_prefix salt0 t0 db :
  reachable salt0 t0 db → ∃ rest, db = users_db salt0 t0 ++ rest.
Proof.
  induction 1 as [|db user now salt Hr [rest ->]].
  - exists []. rewrite app_nil_r. reflexivity.
  - destruct (register_user_step (users_db salt0 t0 ++ rest) user now salt)
      as [-> |[hashed ->]].
    + eexists. reflexivity.
    + eexists. rewrite <- app_assoc. reflexivity.
Qed.

(** C1: in every registry state that registrations can reach from the
    start-up state, no two stored principals have the same email and no
    two have the same username. *)
Theorem registry_uniqueness salt0 t0 db :
  reachable salt0 t0 db →
  unique_on "email" db ∧ unique_on "username" db.
Proof.
  intros (Hdb & He & Hn)%reachable_inv. split.
  - apply registry_inv_unique; [|assumption..].
    intros u [e ->]%principal_email. eauto.
  - apply registry_inv_unique; [|assumption..].
    intros u [n ->]%principal_username. eauto.
Qed.

(** C2: when the email or the username of the candidate is that of a
    stored principal, registration fails with the 400 error "User already
    exists" and the registry afterwards is the registry before: same
    principals, same order, same length. *)
Theorem failed_insert_atomicity db user now salt :
  Forall is_principal db →
  (∃ u, u ∈ db ∧ collides user u) →
  register_user db user now salt
  = (Raise (HTTPException 400 "User already exists"), db)
  ∧ length (register_user db user now salt).2 = length db.
Proof.
  intros Hdb Hc. rewrite register_user_collision by assumption.
  split; reflexivity.
Qed.

End Registry.

(** ** Lookup by username *)

Lemma find_user_cons u rest name :
  is_principal u →
  find_user (u :: rest) name
  = if decide (u !! "username" = Some name) then Return (Some u)
    else find_user rest name.
Proof.
  intros [n Hn]%principal_username. cbn [find_user].
  rewrite (getitem_Some _ _ _ Hn). cbn [mbind outcome_bind].
  rewrite py_eq_str_l, Hn.
  destruct (decide (Some (VStr n) = Some name)) as [Heq|Hne].
  - rewrite bool_decide_eq_true_2 by congruence. reflexivity.
  - rewrite bool_decide_eq_false_2 by congruence. reflexivity.
Qed.

Lemma find_user_absent db name :
  Forall is_principal db →
  (∀ u, u ∈ db → u !! "username" ≠ Some name) →
  find_user db name = Return None.
Proof.
  induction 1 as [|u rest Hu Hrest IH]; intros Habs; [reflexivity|].
  rewrite find_user_cons by assumption.
  rewrite decide_False by (apply Habs; left).
  apply IH. intros w Hw. apply Habs. right. assumption.
Qed.

Lemma find_user_result db name :
  Forall is_principal db →
  find_user db name = Return None
  ∨ ∃ u, find_user db name = Return (Some u)
         ∧ u ∈ db ∧ u !! "username" = Some name.
Proof.
  induction 1 as [|u rest Hu Hrest IH]; [left; reflexivity|].
  rewrite find_user_cons by assumption.
  destruct (decide (u !! "username" = Some name)) as [Heq|Hne].
  - right. exists u. split; [reflexivity|]. split; [left|assumption].
  - destruct IH as [IH|(w & Hw & Hin & Hname)]; [left; assumption|].
    right. exists w. split; [assumption|]. split; [right|]; assumption.
Qed.

(** Whatever the dictionaries hold, a user the loop returns is stored and
    its username equals the name looked up. *)
Lemma find_user_Some db name u :
  find_user db name = Return (Some u) →
  u ∈ db ∧ ∃ v, u !! "username" = Some v ∧ py_eq v name = true.
Proof.
  induction db as [|w rest IH]; cbn [find_user]; [discriminate|].
  unfold getitem. destruct (w !! "username") as [v|] eqn:Hv; [|discriminate].
  cbn [mbind outcome_bind]. destruct (py_eq v name) eqn:Heq.
  - intros [= <-]. split; [left|]. eauto.
  - intros [Hin Hname]%IH. split; [right|]; assumption.
Qed.

Lemma NoDup_fmap_elem_inj {A B} (f : A → B) (l : list A) x y :
  NoDup (f <$> l) → x ∈ l → y ∈ l → f x = f y → x = y.
Proof.
  intros Hnd [i Hi]%list_elem_of_lookup_1 [j Hj]%list_elem_of_lookup_1 Heq.
  assert (i = j) as ->.
  { eapply NoDup_lookup; [exact Hnd| |]; rewrite list_lookup_fmap.
    - rewrite Hi. reflexivity.
    - rewrite Hj. cbn. f_equal. symmetry. exact Heq. }
  congruence.
Qed.

(** With unique usernames the loop finds the one principal of that name. *)
Lemma find_user_present db name u :
  registry_inv db →
  u ∈ db → u !! "username" = Some name →
  find_user db name = Return (Some u).
Proof.
  intros (Hdb & _ & Hnd) Hu Hname.
  destruct (find_user_result db name Hdb) as [Hnone|(w & Hw & Hin & Hwname)].
  - exfalso. revert Hnone Hu Hname. clear Hnd.
    induction Hdb as [|v rest Hv Hrest IH]; intros Hnone Hu Hname.
    + inversion Hu.
    + rewrite find_user_cons in Hnone by assumption.
      destruct (decide (v !! "username" = Some name)); [discriminate|].
      apply elem_of_cons in Hu as [->|Hu]; [contradiction|]. apply IH; assumption.
  - rewrite Hw. do 2 f_equal.
    apply (NoDup_fmap_elem_inj (.!! "username") db); [assumption..|congruence].
Qed.

(** ** The two password functions *)

Section Passwords.
Context `{!Bcrypt}.

Lemma verify_password_short password hashed :
  length (encode_utf8 password) ≤ 72 →
  verify_password password hashed
  = Return (bool_decide (bcrypt_kdf (encode_utf8 password) hashed = hashed)).
Proof.
  intros Hlen. unfold verify_password, bcrypt_checkpw, bcrypt_hashpw.
  rewrite bool_decide_eq_false_2 by lia. reflexivity.
Qed.

Lemma verify_password_long password hashed :
  72 < length (encode_utf8 password) →
  verify_password password hashed = Raise ValueError.
Proof.
  intros Hlen. unfold verify_password, bcrypt_checkpw, bcrypt_hashpw.
  rewrite bool_decide_eq_true_2 by lia. reflexivity.
Qed.

(** Against a digest, the candidate is hashed under the salt the digest
    was made with. *)
Lemma verify_password_digest password q salt :
  length (encode_utf8 password) ≤ 72 →
  verify_password password (bcrypt_kdf q salt)
  = Return (bool_decide (bcrypt_kdf (encode_utf8 password) salt = bcrypt_kdf q salt)).
Proof.
  intros Hlen. rewrite verify_password_short by assumption.
  rewrite bcrypt_kdf_salt. reflexivity.
Qed.

Lemma verify_password_cases password hashed :
  (length (encode_utf8 password) ≤ 72
   ∧ verify_password password hashed
     = Return (bool_decide (bcrypt_kdf (encode_utf8 password) hashed = hashed)))
  ∨ (72 < length (encode_utf8 password)
     ∧ verify_password password hashed = Raise ValueError).
Proof.
  destruct (decide (length (encode_utf8 password) ≤ 72)) as [Hlen|Hlen].
  - left. split; [assumption|]. apply verify_password_short, Hlen.
  - right. split; [lia|]. apply verify_password_long. lia.
Qed.

End Passwords.

(** ** Login *)

Section Endpoints.
Context `{!Bcrypt, !PyJWT}.
Variable SECRET_KEY : string.

Lemma login_unknown db cred now :
  Forall is_principal db →
  (∀ u, u ∈ db → u !! "username" ≠ Some (VStr (UserLogin.username cred))) →
  login SECRET_KEY db cred now
  = Raise (HTTPException HTTP_401_UNAUTHORIZED "Incorrect username or password").
Proof.
  intros Hdb Habs. unfold login.
  rewrite find_user_absent by assumption. reflexivity.
Qed.

(** [login] on a stored principal is decided by [verify_password]. *)
Lemma login_present db cred now u h :
  registry_inv db →
  u ∈ db →
  u !! "username" = Some (VStr (UserLogin.username cred)) →
  u !! "hashed_password" = Some (VBytes h) →
  login SECRET_KEY db cred now
  = match verify_password (UserLogin.password cred) h with
    | Return true =>
        Return (mkToken
          (create_access_token SECRET_KEY
             [("sub", VStr (UserLogin.username cred))]
             (Some (timedelta_minutes 30)) now) "bearer")
    | Return false =>
        Raise (HTTPException HTTP_401_UNAUTHORIZED "Incorrect username or password")
    | Raise e => Raise e
    end.
Proof.
  intros Hinv Hu Hname Hh. unfold login.
  rewrite (find_user_present db _ u) by assumption.
  cbn [mbind outcome_bind not_user].
  rewrite bool_decide_eq_false_2.
  2:{ apply principal_nonempty. destruct Hinv as [Hdb _].
      eapply Forall_forall; [exact Hdb|exact Hu]. }
  rewrite (getitem_Some _ _ _ Hh). cbn [mbind outcome_bind].
  destruct (verify_password _ h) as [[|]|e]; cbn [mbind outcome_bind];
    [|reflexivity..].
  rewrite (getitem_Some _ _ _ Hname). reflexivity.
Qed.

(** A login that succeeds answers with a bearer token for the username
    of the request, issued for thirty minutes. *)
Lemma login_Return db cred now token :
  login SECRET_KEY db cred now = Return token →
  token = mkToken
            (create_access_token SECRET_KEY
               [("sub", VStr (UserLogin.username cred))]
               (Some (timedelta_minutes 30)) now) "bearer".
Proof.
  unfold login.
  destruct (find_user db _) as [[u|]|e] eqn:Hfind; cbn [mbind outcome_bind];
    [|discriminate..].
  apply find_user_Some in Hfind as (_ & v & Hv & Heq).
  rewrite py_eq_str_r in Heq. apply bool_decide_eq_true_1 in Heq as ->.
  destruct (not_user _); [discriminate|].
  destruct (getitem u "hashed_password") as [[| | |hashed| |]|e];
    cbn [mbind outcome_bind]; try discriminate.
  destruct (verify_password _ hashed) as [[|]|e]; cbn [mbind outcome_bind];
    [|discriminate..].
  rewrite (getitem_Some _ _ _ Hv). cbn [mbind outcome_bind].
  intros [= <-]. reflexivity.
Qed.


End Endpoints.

(** ** Claims *)

Lemma claims_get_update_eq k v (d : claims) : claims_get (claims_update k v d) k = v.
Proof.
  induction d as [|[k' v'] d IH]; cbn [claims_update claims_get].
  - rewrite decide_True by reflexivity. reflexivity.
  - destruct (decide (k' = k)) as [->|Hne]; cbn [claims_get].
    + rewrite decide_True by reflexivity. reflexivity.
    + rewrite decide_False by assumption. exact IH.
Qed.

Lemma claims_get_update_ne k k' v (d : claims) :
  k ≠ k' → claims_get (claims_update k v d) k' = claims_get d k'.
Proof.
  intros Hne. induction d as [|[k0 v0] d IH]; cbn [claims_update claims_get].
  - rewrite decide_False by assumption. reflexivity.
  - destruct (decide (k0 = k)) as [->|Hne0]; cbn [claims_get].
    + rewrite !decide_False by assumption. reflexivity.
    + rewrite IH. reflexivity.
Qed.

Lemma claims_update_keys k v (d : claims) :
  (claims_update k v d).*1 = if decide (k ∈ d.*1) then d.*1 else d.*1 ++ [k].
Proof.
  induction d as [|[k0 v0] d IH]; cbn [claims_update fmap list_fmap fst].
  - rewrite decide_False by apply not_elem_of_nil. reflexivity.
  - destruct (decide (k0 = k)) as [->|Hne]; cbn [fmap list_fmap fst].
    + rewrite decide_True by left. reflexivity.
    + change (list_fmap _ _ fst ?l) with (l.*1). rewrite IH.
      destruct (decide (k ∈ d.*1)) as [Hin|Hnin].
      * rewrite decide_True by (right; exact Hin). reflexivity.
      * rewrite decide_False; [reflexivity|].
        intros [Heq|Hin]%elem_of_cons; [congruence|contradiction].
Qed.

Lemma claims_update_NoDup k v (d : claims) :
  NoDup d.*1 → NoDup (claims_update k v d).*1.
Proof.
  intros Hnd. rewrite claims_update_keys.
  destruct (decide (k ∈ d.*1)) as [Hin|Hnin]; [exact Hnd|].
  apply NoDup_app. split; [exact Hnd|]. split; [|apply NoDup_singleton].
  intros x Hx ->%list_elem_of_singleton. contradiction.
Qed.

Lemma forallb_without_key (P : string * pyval → bool) k (d : claims) :
  k ∉ d.*1 →
  forallb (λ kv, bool_decide (kv.1 = k) || P kv) d = true →
  forallb P d = true.
Proof.
  induction d as [|[k0 v0] d IH]; [reflexivity|].
  cbn [forallb fmap list_fmap fst]. intros Hnin [Hhd Htl]%andb_true_iff.
  apply not_elem_of_cons in Hnin as [Hne Hnin].
  rewrite bool_decide_eq_false_2 in Hhd by congruence. cbn [orb] in Hhd.
  rewrite Hhd, IH by assumption. reflexivity.
Qed.

Lemma claims_update_forallb (P : string * pyval → bool) k v (d : claims) :
  NoDup d.*1 →
  P (k, v) = true →
  forallb (λ kv, bool_decide (kv.1 = k) || P kv) d = true →
  forallb P (claims_update k v d) = true.
Proof.
  intros Hnd Hkv. induction d as [|[k0 v0] d IH]; cbn [claims_update forallb fst].
  - intros _. rewrite Hkv. reflexivity.
  - intros [Hhd Htl]%andb_true_iff.
    apply NoDup_cons in Hnd as [Hnin Hnd].
    destruct (decide (k0 = k)) as [->|Hne]; cbn [forallb].
    + rewrite Hkv. cbn [andb]. apply (forallb_without_key P k); assumption.
    + rewrite bool_decide_eq_false_2 in Hhd by assumption. cbn [orb] in Hhd.
      rewrite Hhd, IH by assumption. reflexivity.
Qed.

(** What [create_access_token] signs over plain data is a plain payload. *)
Lemma plain_data_payload data exp :
  plain_data data = true →
  plain_payload (claims_update "exp" (VDatetime exp) data) = true.
Proof.
  unfold plain_data, plain_payload.
  intros [Hnd Hall]%andb_true_iff. apply bool_decide_eq_true_1 in Hnd.
  apply andb_true_iff. split.
  - apply bool_decide_eq_true_2, claims_update_NoDup, Hnd.
  - apply claims_update_forallb; [exact Hnd|reflexivity|exact Hall].
Qed.

Lemma claim_json_key kv : (claim_json kv).1 = kv.1.
Proof.
  unfold claim_json. destruct kv as [k [| | | | |t]]; cbn [fst snd]; try reflexivity.
  case_bool_decide; reflexivity.
Qed.

(** Writing the times as numbers leaves the subject as it is. *)
Lemma claims_get_json_sub (d : claims) :
  claims_get (claims_json d) "sub" = claims_get d "sub".
Proof.
  induction d as [|[k v] d IH]; [reflexivity|].
  unfold claims_json. cbn [fmap list_fmap claims_get].
  pose proof (claim_json_key (k, v)) as Hk. cbn [fst] in Hk.
  destruct (claim_json (k, v)) as [k' v'] eqn:Hj. cbn [fst] in Hk. subst k'.
  destruct (decide (k = "sub")) as [->|Hne]; [|exact IH].
  unfold claim_json in Hj. cbn [fst snd] in Hj.
  destruct v; injection Hj as <-; reflexivity.
Qed.

Lemma claims_get_json_exp (d : claims) exp :
  claims_get d "exp" = VDatetime exp →
  claims_get (claims_json d) "exp" = VInt (exp / second).
Proof.
  induction d as [|[k v] d IH]; [discriminate|].
  unfold claims_json. cbn [fmap list_fmap claims_get].
  destruct (decide (k = "exp")) as [->|Hne].
  - intros ->. reflexivity.
  - intros Hd. pose proof (claim_json_key (k, v)) as Hk.
    destruct (claim_json (k, v)) as [k' v']. cbn [fst] in Hk. subst k'.
    cbn [claims_get]. rewrite decide_False by assumption. apply IH, Hd.
Qed.

Lemma expired_false exp now : (now < exp / second * second)%Z → expired exp now = false.
Proof. intros Hlt. unfold expired. apply bool_decide_eq_false_2. lia. Qed.

Lemma expired_true exp now : (exp / second * second ≤ now)%Z → expired exp now = true.
Proof. intros Hle. unfold expired. apply bool_decide_eq_true_2. exact Hle. Qed.

(** The second of expiry is at most one second before the expiry. *)
Lemma expiry_second_bounds exp :
  (exp - second < exp / second * second ≤ exp)%Z.
Proof.
  unfold second. pose proof (Z.mod_pos_bound exp 1000000 eq_refl) as Hm.
  pose proof (Z.div_mod exp 1000000) as Hd. lia.
Qed.

(** ** Tokens *)

Section Tokens.
Context `{!PyJWT}.
Variable SECRET_KEY : string.

Lemma expire_at_truthy d now : d ≠ 0%Z → expire_at (Some d) now = (now + d)%Z.
Proof. intros Hd. unfold expire_at. rewrite bool_decide_eq_true_2; done. Qed.

Lemma expire_at_zero now : expire_at (Some 0%Z) now = (now + 900 * second)%Z.
Proof. reflexivity. Qed.

Lemma expire_at_None now : expire_at None now = (now + 900 * second)%Z.
Proof. reflexivity. Qed.

(** Whatever [data] holds, [jwt.decode] returns from a token of
    [create_access_token] nothing but what was signed, and only before
    the second of expiry. *)
Lemma decode_access_token_sound data delta t_issue t_verify decoded :
  jwt_decode (create_access_token SECRET_KEY data delta t_issue)
             SECRET_KEY [ALGORITHM] t_verify = inr decoded →
  decoded = claims_json (claims_update "exp" (VDatetime (expire_at delta t_issue)) data)
  ∧ expired (expire_at delta t_issue) t_verify = false.
Proof.
  unfold create_access_token. intros [-> Hexp]%jwt_decode_sound.
  split; [reflexivity|]. apply Hexp, claims_get_update_eq.
Qed.

(** Over plain data it returns the claims until then. *)
Lemma decode_access_token_plain data delta t_issue t_verify :
  plain_data data = true →
  jwt_decode (create_access_token SECRET_KEY data delta t_issue)
             SECRET_KEY [ALGORITHM] t_verify
  = if expired (expire_at delta t_issue) t_verify then inl ExpiredSignatureError
    else inr (claims_json
                (claims_update "exp" (VDatetime (expire_at delta t_issue)) data)).
Proof.
  intros Hplain. unfold create_access_token. apply jwt_decode_plain.
  - apply list_elem_of_singleton. reflexivity.
  - apply plain_data_payload, Hplain.
  - apply claims_get_update_eq.
Qed.

Lemma verify_token_valid data delta t_issue t_verify :
  plain_data data = true →
  expired (expire_at delta t_issue) t_verify = false →
  claims_get data "sub" ≠ VNone →
  verify_token SECRET_KEY (create_access_token SECRET_KEY data delta t_issue) t_verify
  = Return (claims_get data "sub").
Proof.
  intros Hplain Hexp Hsub. unfold verify_token.
  rewrite decode_access_token_plain, Hexp by assumption.
  rewrite claims_get_json_sub, claims_get_update_ne by discriminate.
  rewrite bool_decide_eq_false_2 by assumption. reflexivity.
Qed.

Lemma verify_token_expired data delta t_issue t_verify :
  expired (expire_at delta t_issue) t_verify = true →
  verify_token SECRET_KEY (create_access_token SECRET_KEY data delta t_issue) t_verify
  = Raise (HTTPException HTTP_401_UNAUTHORIZED "Could not validate credentials").
Proof.
  intros Hexp. unfold verify_token.
  destruct (jwt_decode _ _ _ _) as [err|decoded] eqn:Hdec; [reflexivity|].
  apply decode_access_token_sound in Hdec as [_ Hnot]. congruence.
Qed.

Lemma plain_data_sub sub : plain_data [("sub", VStr sub)] = true.
Proof. reflexivity. Qed.

(** C5, as amended: a token issued for [subj] with a positive time to
    live that leaves the expiry within the range of [datetime], verified
    under the same key, verifies while the clock is before
    the whole second to which the issuing time plus the time to live is
    cut down: decoding gives the claim set with ["sub"] = [subj] and that
    second as ["exp"], and [verify_token] returns [subj]. From that
    second on the answer is 401. *)
Theorem token_round_trip subj ttl t_issue t_verify :
  (0 < ttl)%Z →
  (t_issue + ttl ≤ datetime_max)%Z →
  let token :=
    create_access_token SECRET_KEY [("sub", VStr subj)] (Some ttl) t_issue in
  let exp_second := ((t_issue + ttl) / second)%Z in
  ((t_verify < exp_second * second)%Z →
     jwt_decode token SECRET_KEY [ALGORITHM] t_verify
     = inr [("sub", VStr subj); ("exp", VInt exp_second)]
     ∧ verify_token SECRET_KEY token t_verify = Return (VStr subj))
  ∧ ((exp_second * second ≤ t_verify)%Z →
     verify_token SECRET_KEY token t_verify
     = Raise (HTTPException 401 "Could not validate credentials")).
Proof.
  intros Hpos _ token exp_second. subst token exp_second.
  assert (expire_at (Some ttl) t_issue = (t_issue + ttl)%Z) as Hexp
    by (apply expire_at_truthy; lia).
  split.
  - intros Hlt. split.
    + rewrite decode_access_token_plain by reflexivity.
      rewrite Hexp, expired_false by exact Hlt. reflexivity.
    + rewrite verify_token_valid; [reflexivity|reflexivity| |discriminate].
      rewrite Hexp. apply expired_false, Hlt.
  - intros Hle. apply verify_token_expired. rewrite Hexp. apply expired_true, Hle.
Qed.

(** A positive time to live may be over before it has elapsed: issued
    less than a second before a whole second with one second to live, the
    token is refused at that whole second. *)
Lemma token_refused_before_ttl subj t_issue :
  (t_issue mod second = 900000)%Z →
  verify_token SECRET_KEY
    (create_access_token SECRET_KEY [("sub", VStr subj)] (Some second) t_issue)
    (t_issue + 100000)%Z
  = Raise (HTTPException HTTP_401_UNAUTHORIZED "Could not validate credentials").
Proof.
  intros Hmod. apply verify_token_expired.
  rewrite expire_at_truthy by discriminate. apply expired_true.
  unfold second in *. pose proof (Z.div_mod t_issue 1000000) as Hd.
  pose proof (Z.div_mod (t_issue + 1000000) 1000000) as Hd'.
  pose proof (Z.mod_pos_bound (t_issue + 1000000) 1000000 eq_refl) as Hm'.
  replace ((t_issue + 1000000) mod 1000000)%Z with 900000%Z in *; [lia|].
  rewrite <- Hmod. symmetry. rewrite <- (Z.mul_1_l 1000000) at 1.
  apply Z.mod_add. discriminate.
Qed.

(** C6: the code at the input the claim names. A token issued with a
    zero [expires_delta] is not expired when it is issued: [timedelta(0)]
    is falsy, the [else] branch gives it fifteen minutes, and one second
    after it was issued [verify_token] returns its subject. *)
Theorem zero_ttl_token_verifies subj t_issue :
  expire_at (Some 0%Z) t_issue = (t_issue + 900 * second)%Z
  ∧ verify_token SECRET_KEY
      (create_access_token SECRET_KEY [("sub", VStr subj)] (Some 0%Z) t_issue)
      (t_issue + second)%Z
    = Return (VStr subj).
Proof.
  split; [reflexivity|].
  rewrite verify_token_valid; [reflexivity|reflexivity| |discriminate].
  rewrite expire_at_zero. apply expired_false.
  pose proof (expiry_second_bounds (t_issue + 900 * second)) as Hb.
  unfold second in *. lia.
Qed.

(** C9: the token of a successful [login] carries the username as ["sub"]
    and expires 1800 seconds (30 minutes) after the login; a token that
    [create_access_token] issues without an [expires_delta] expires 900
    seconds (15 minutes) after it is issued. Decoding the login token
    gives these two claims, the expiry as a whole number of seconds,
    until the clock reaches that second. *)
Theorem default_ttl_policy `{!Bcrypt} :
  (∀ db cred now token,
      login SECRET_KEY db cred now = Return token →
      access_token token
      = jwt_encode [("sub", VStr (UserLogin.username cred));
                    ("exp", VDatetime (now + 1800 * second)%Z)]
                   SECRET_KEY ALGORITHM
      ∧ ∀ t_verify, jwt_decode (access_token token) SECRET_KEY [ALGORITHM] t_verify
          = if bool_decide ((now + 1800 * second) / second * second ≤ t_verify)%Z
            then inl ExpiredSignatureError
            else inr [("sub", VStr (UserLogin.username cred));
                      ("exp", VInt ((now + 1800 * second) / second))])
  ∧ (∀ data now,
      create_access_token SECRET_KEY data None now
      = jwt_encode (claims_update "exp" (VDatetime (now + 900 * second)%Z) data)
          SECRET_KEY ALGORITHM).
Proof.
  split; [|reflexivity].
  intros db cred now token ->%login_Return. cbn [access_token].
  split; [reflexivity|].
  intros t_verify. rewrite decode_access_token_plain by reflexivity.
  rewrite expire_at_truthy by done.
  replace (now + timedelta_minutes 30)%Z with (now + 1800 * second)%Z by reflexivity.
  unfold expired. case_bool_decide; reflexivity.
Qed.

End Tokens.

(** ** What the endpoints return *)

Lemma response_of_principal (u : dict) r :
  is_principal u →
  UserResponse_init (public_fields u) = Return r →
  model_dump r = delete "hashed_password" u.
Proof.
  intros (i & e & n & f & h & c & a & ->).
  rewrite UserResponse_init_principal. intros [= <-].
  apply model_dump_principal.
Qed.

Lemma get_current_user_Return db name r :
  Forall is_principal db →
  get_current_user db name = Return r →
  ∃ u, u ∈ db ∧ u !! "username" = Some name
       ∧ model_dump r = delete "hashed_password" u.
Proof.
  intros Hdb. unfold get_current_user.
  destruct (find_user_result db name Hdb) as [->|(u & -> & Hu & Hname)];
    cbn [mbind outcome_bind]; [discriminate|].
  destruct (not_user _); [discriminate|]. intros Hr.
  exists u. split; [assumption|]. split; [assumption|].
  apply response_of_principal; [|assumption].
  eapply Forall_forall; [exact Hdb|exact Hu].
Qed.

Lemma list_users_Return db name rs :
  Forall is_principal db →
  list_users db name = Return rs →
  model_dump <$> rs = delete "hashed_password" <$> db.
Proof.
  unfold list_users. intros Hdb. revert rs.
  induction Hdb as [|u rest Hu Hrest IH]; intros rs; cbn [mapM].
  - intros [= <-]. reflexivity.
  - destruct (UserResponse_init (public_fields u)) as [r|e] eqn:Hr;
      cbn [mbind outcome_bind]; [|discriminate].
    destruct (mapM _ rest) as [rs'|e]; cbn [mbind outcome_bind]; [|discriminate].
    intros [= <-]. cbn [fmap list_fmap]. f_equal.
    + apply response_of_principal; assumption.
    + apply IH. reflexivity.
Qed.

Section Secrecy.
Context `{!Bcrypt, !PyJWT}.
Variable SECRET_KEY : string.

(** C7: what [register_user], GET /users/me and GET /users return never
    holds the hashed password: the fields of every response are those of
    a stored principal with the key ["hashed_password"] removed, so no
    response has that key. *)
Theorem verifier_secrecy db :
  Forall is_principal db →
  (∀ user now salt r db',
      register_user db user now salt = (Return r, db') →
      ∃ u, u ∈ db' ∧ model_dump r = delete "hashed_password" u
           ∧ model_dump r !! "hashed_password" = None)
  ∧ (∀ credentials now r,
      users_me SECRET_KEY db credentials now = Return r →
      ∃ u, u ∈ db ∧ model_dump r = delete "hashed_password" u
           ∧ model_dump r !! "hashed_password" = None)
  ∧ (∀ credentials now rs,
      users_list SECRET_KEY db credentials now = Return rs →
      model_dump <$> rs = delete "hashed_password" <$> db
      ∧ ∀ r, r ∈ rs → model_dump r !! "hashed_password" = None).
Proof.
  intros Hdb. split; [|split].
  - intros user now salt r db' Hreg.
    apply register_user_Return in Hreg as (_ & _ & -> & ->); [|assumption].
    eexists. split.
    + apply elem_of_app. right. left.
    + split; [|reflexivity]. rewrite new_user_of_principal.
      apply model_dump_principal.
  - intros credentials now r. unfold users_me.
    destruct (verify_token _ _ _) as [name|e]; cbn [mbind outcome_bind];
      [|discriminate].
    intros (u & Hu & _ & Hr)%get_current_user_Return; [|assumption].
    exists u. split; [assumption|]. split; [assumption|reflexivity].
  - intros credentials now rs. unfold users_list.
    destruct (verify_token _ _ _) as [name|e]; cbn [mbind outcome_bind];
      [|discriminate].
    intros Hrs%list_users_Return; [|assumption].
    split; [assumption|]. intros r _. reflexivity.
Qed.

End Secrecy.

(** ** The start-up state *)

Section Startup.
Context `{!Bcrypt}.

(** C10: at start-up the registry holds exactly one principal, the
    active administrator with id 1, username "admin" and email
    "admin@example.com"; it stays the first entry of every reachable
    registry; and a registration that succeeds on the start-up registry
    is given id 2. *)
Theorem preseeded_admin salt0 t0 :
  let admin :=
    principal_dict 1 "admin@example.com" "admin" "System Administrator"
      (bcrypt_kdf (encode_utf8 "admin123") salt0) t0 true in
  users_db salt0 t0 = [admin]
  ∧ (∀ db, reachable salt0 t0 db → db !! 0%nat = Some admin)
  ∧ (∀ user now salt r db',
      register_user (users_db salt0 t0) user now salt = (Return r, db') →
      UserResponse.id r = 2%Z ∧ length db' = 2%nat).
Proof.
  intros admin. split; [reflexivity|]. split.
  - intros db [rest ->]%reachable_prefix. reflexivity.
  - intros user now salt r db' Hreg.
    apply register_user_Return in Hreg as (_ & _ & -> & ->);
      [|apply registry_inv_init].
    split; reflexivity.
Qed.

(** C3, as amended: on the start-up registry the registration of
    a@x.com / alice / pw123 / Alice succeeds, the response has id 2 (the
    administrator holds id 1) and no ["hashed_password"] field. *)
Theorem register_alice_on_startup salt0 t0 now salt :
  ∃ r db',
    register_user (users_db salt0 t0)
      (UserCreate.mk "a@x.com" "alice" "pw123" "Alice") now salt = (Return r, db')
    ∧ UserResponse.id r = 2%Z
    ∧ model_dump r !! "hashed_password" = None
    ∧ r = UserResponse.mk 2 "a@x.com" "alice" "Alice" now true.
Proof.
  do 2 eexists. split; [reflexivity|]. repeat split.
Qed.

End Startup.

(** ** Counting digests *)

Lemma byte_of_to_nat b : byte_of_nat (Byte.to_nat b) = b.
Proof. unfold byte_of_nat. rewrite Byte.of_to_nat. reflexivity. Qed.

Lemma byte_to_nat_lt b : Byte.to_nat b < 256.
Proof. pose proof (Byte.to_nat_bounded b). lia. Qed.

Lemma byte_to_of_nat i : i < 256 → Byte.to_nat (byte_of_nat i) = i.
Proof.
  intros Hi. unfold byte_of_nat. destruct (Byte.of_nat i) as [b|] eqn:E.
  - apply Byte.to_of_nat, E.
  - apply Byte.of_nat_None_iff in E. lia.
Qed.

#[local] Instance byte_finite : Finite byte :=
  enc_finite Byte.to_nat byte_of_nat 256 byte_of_to_nat byte_to_nat_lt byte_to_of_nat.








Section Hashing.
Context `{!Bcrypt}.




End Hashing.

(** ** Further properties of the registry *)

Section RegistryMore.
Context `{!Bcrypt}.

(** X1: on a registry of principals, a candidate whose email and username
    no stored principal has is registered when the password is at most 72
    bytes long: the response echoes the candidate with id
    [len(users_db) + 1], the time of the call and [is_active = True], and
    the registry is the old one followed by the new principal, whose
    verifier is the digest of the password. With a longer password
    [hash_password] raises [ValueError] and the registry is unchanged. *)
Theorem register_user_success db user now salt :
  Forall is_principal db →
  (∀ u, u ∈ db → ¬ collides user u) →
  (length (encode_utf8 (UserCreate.password user)) ≤ 72 →
   register_user db user now salt
   = (Return (UserResponse.mk (Z.of_nat (length db) + 1) (UserCreate.email user)
                (UserCreate.username user) (UserCreate.full_name user) now true),
      db ++ [principal_dict (Z.of_nat (length db) + 1) (UserCreate.email user)
               (UserCreate.username user) (UserCreate.full_name user)
               (bcrypt_kdf (encode_utf8 (UserCreate.password user)) salt) now true]))
  ∧ (72 < length (encode_utf8 (UserCreate.password user)) →
     register_user db user now salt = (Raise ValueError, db)).
Proof.
  intros Hdb Hfresh.
  pose proof (check_existing_fresh db user Hdb Hfresh) as Hret. split; intros Hlen.
  - rewrite register_user_fresh by assumption.
    rewrite new_user_of_principal. reflexivity.
  - apply register_user_long; assumption.
Qed.

(** X2: once a registration has succeeded, a later registration that
    reuses its email or its username is refused with 400 "User already
    exists" and leaves the registry as the first one left it. *)
Theorem register_again_conflict db user user' now salt now' salt' r db' :
  Forall is_principal db →
  register_user db user now salt = (Return r, db') →
  UserCreate.email user' = UserCreate.email user
  ∨ UserCreate.username user' = UserCreate.username user →
  register_user db' user' now' salt'
  = (Raise (HTTPException 400 "User already exists"), db').
Proof.
  intros Hdb Hreg Hsame.
  apply register_user_Return in Hreg as (_ & _ & _ & ->); [|assumption].
  apply register_user_collision.
  - apply Forall_app. split; [assumption|].
    constructor; [apply is_principal_new_user|constructor].
  - eexists. split.
    + apply elem_of_app. right. left.
    + unfold collides. rewrite new_user_of_principal.
      destruct Hsame as [-> | ->]; [left|right]; reflexivity.
Qed.

(** X3: in every reachable registry the principal at position [i] has id
    [i + 1]; so ids are 1, 2, ... in insertion order and no two principals
    share one. *)
Theorem ids_sequential salt0 t0 db :
  reachable salt0 t0 db →
  (∀ i u, db !! i = Some u → u !! "id" = Some (VInt (Z.of_nat i + 1)))
  ∧ unique_on "id" db.
Proof.
  intros Hr.
  assert (∀ i u, db !! i = Some u → u !! "id" = Some (VInt (Z.of_nat i + 1))) as Hids.
  { induction Hr as [|db user now salt Hr IH].
    - intros [|i] u; [intros [= <-]; reflexivity|discriminate].
    - destruct (register_user_step db user now salt) as [-> |[hashed ->]];
        [exact IH|].
      intros i u Hi. apply lookup_app_Some in Hi as [Hi|[Hge Hi]]; [apply IH, Hi|].
      apply list_lookup_singleton_Some in Hi as [Hi <-].
      replace i with (length db) by lia. reflexivity. }
  split; [exact Hids|].
  intros i j u v Hi Hj Heq.
  unfold getitem in Heq. rewrite (Hids i u Hi), (Hids j v Hj) in Heq.
  injection Heq as Heq. lia.
Qed.

Lemma register_all_prefix db requests : db `prefix_of` register_all db requests.
Proof.
  revert db. induction requests as [|[[user now] salt] requests IH]; intros db;
    cbn [register_all]; [reflexivity|].
  etransitivity; [|apply IH].
  destruct (register_user_step db user now salt) as [-> |[hashed ->]];
    [reflexivity|].
  apply prefix_app_r. reflexivity.
Qed.

Lemma register_all_principals db requests :
  Forall is_principal db → Forall is_principal (register_all db requests).
Proof.
  revert db. induction requests as [|[[user now] salt] requests IH]; intros db Hdb;
    cbn [register_all]; [exact Hdb|].
  apply IH. destruct (register_user_step db user now salt) as [-> |[hashed ->]];
    [exact Hdb|].
  apply Forall_app. split; [exact Hdb|].
  constructor; [apply is_principal_new_user|constructor].
Qed.

(** X4: registrations only append. Whatever requests are served, the
    registry before them is a prefix of the registry after them, and each
    request adds at most one principal. *)
Theorem registry_append_only db requests :
  db `prefix_of` register_all db requests
  ∧ length (register_all db requests) ≤ length db + length requests.
Proof.
  split; [apply register_all_prefix|].
  revert db. induction requests as [|[[user now] salt] requests IH]; intros db;
    cbn [register_all length]; [lia|].
  specialize (IH (register_user db user now salt).2).
  destruct (register_user_step db user now salt) as [Heq|[hashed Heq]];
    rewrite Heq in IH |- *.
  - lia.
  - rewrite length_app in IH. cbn [length] in IH. lia.
Qed.

(** X17: the identity of the administrator is reserved. In every
    reachable registry a candidate with the email "admin@example.com" or
    the username "admin" is refused with 400 "User already exists" and the
    registry is unchanged. *)
Theorem admin_identity_reserved salt0 t0 db user now salt :
  reachable salt0 t0 db →
  UserCreate.email user = "admin@example.com" ∨ UserCreate.username user = "admin" →
  register_user db user now salt
  = (Raise (HTTPException 400 "User already exists"), db).
Proof.
  intros Hr Hadmin. apply register_user_collision.
  - apply (reachable_principals _ _ _ Hr).
  - destruct (reachable_prefix _ _ _ Hr) as [rest ->].
    eexists. split; [apply elem_of_app; left; left|].
    unfold collides. destruct Hadmin as [-> | ->]; [left|right]; reflexivity.
Qed.

(** X18: an email or a username, once stored, stays taken. If a stored
    principal has the email or the username of a candidate, then after
    any further registration requests the candidate is still refused with
    400 "User already exists", the registry unchanged. *)
Theorem taken_identity_stays_taken db u user requests now salt :
  Forall is_principal db →
  u ∈ db → collides user u →
  register_user (register_all db requests) user now salt
  = (Raise (HTTPException 400 "User already exists"), register_all db requests).
Proof.
  intros Hdb Hu Hc. apply register_user_collision.
  - apply register_all_principals, Hdb.
  - exists u. split; [|exact Hc].
    destruct (register_all_prefix db requests) as [rest ->].
    apply elem_of_app. left. exact Hu.
Qed.

End RegistryMore.

(** ** Further properties of the endpoints *)

Lemma get_current_user_present db name u :
  registry_inv db →
  u ∈ db → u !! "username" = Some name →
  get_current_user db name = UserResponse_init (public_fields u).
Proof.
  intros Hinv Hu Hname. unfold get_current_user.
  rewrite (find_user_present db name u) by assumption.
  cbn [mbind outcome_bind not_user].
  rewrite bool_decide_eq_false_2; [reflexivity|].
  apply principal_nonempty. eapply Forall_forall; [apply Hinv|exact Hu].
Qed.

Lemma list_users_total db name :
  Forall is_principal db →
  ∃ rs, list_users db name = Return rs.
Proof.
  unfold list_users. induction 1 as [|u rest Hu Hrest [rs IH]]; cbn [mapM].
  - eexists. reflexivity.
  - destruct Hu as (i & e & n & f & h & c & a & ->).
    rewrite UserResponse_init_principal, IH. eexists. reflexivity.
Qed.

Section EndpointsMore.
Context `{!Bcrypt, !PyJWT}.
Variable SECRET_KEY : string.

(** X5: registrations cannot lock the administrator out. In every
    reachable registry a login as admin / admin123 succeeds with a bearer
    token for "admin" issued for thirty minutes. *)
Theorem admin_can_always_login salt0 t0 db now :
  reachable salt0 t0 db →
  login SECRET_KEY db (UserLogin.mk "admin" "admin123") now
  = Return (mkToken
      (create_access_token SECRET_KEY [("sub", VStr "admin")]
         (Some (timedelta_minutes 30)) now) "bearer").
Proof.
  intros Hr. pose proof (reachable_inv _ _ _ Hr) as Hinv.
  destruct (reachable_prefix _ _ _ Hr) as [rest ->].
  rewrite (login_present SECRET_KEY _ _ now
             (principal_dict 1 "admin@example.com" "admin" "System Administrator"
                (bcrypt_kdf (encode_utf8 "admin123") salt0) t0 true)
             (bcrypt_kdf (encode_utf8 "admin123") salt0)).
  - cbn [UserLogin.password UserLogin.username].
    rewrite verify_password_digest by (cbn; lia).
    rewrite bool_decide_eq_true_2 by reflexivity. reflexivity.
  - exact Hinv.
  - apply elem_of_app. left. left.
  - reflexivity.
  - reflexivity.
Qed.

(** [login] under the username of a principal that a registration has
    just stored. *)
Lemma login_registered db user now salt r db' pw now' :
  registry_inv db →
  register_user db user now salt = (Return r, db') →
  login SECRET_KEY db' (UserLogin.mk (UserCreate.username user) pw) now'
  = match verify_password pw (bcrypt_kdf (encode_utf8 (UserCreate.password user)) salt) with
    | Return true =>
        Return (mkToken
          (create_access_token SECRET_KEY [("sub", VStr (UserCreate.username user))]
             (Some (timedelta_minutes 30)) now') "bearer")
    | Return false =>
        Raise (HTTPException HTTP_401_UNAUTHORIZED "Incorrect username or password")
    | Raise e => Raise e
    end.
Proof.
  intros Hinv Hreg.
  pose proof (registry_inv_register db user now salt Hinv) as Hinv'.
  rewrite Hreg in Hinv'. cbn [snd] in Hinv'.
  apply register_user_Return in Hreg as (_ & _ & _ & ->); [|apply Hinv].
  apply (login_present SECRET_KEY _ (UserLogin.mk (UserCreate.username user) pw) now'
           (new_user_of db user
              (bcrypt_kdf (encode_utf8 (UserCreate.password user)) salt) now)).
  - exact Hinv'.
  - apply elem_of_app. right. left.
  - reflexivity.
  - reflexivity.
Qed.

(** X6: after a successful registration, a login with the registered
    username and password succeeds, with a bearer token for that username
    issued for thirty minutes; a login under that username with a
    password of more than 72 bytes raises [ValueError]. *)
Theorem register_then_login db user now salt r db' now' :
  registry_inv db →
  register_user db user now salt = (Return r, db') →
  login SECRET_KEY db' (UserLogin.mk (UserCreate.username user) (UserCreate.password user)) now'
  = Return (mkToken
      (create_access_token SECRET_KEY [("sub", VStr (UserCreate.username user))]
         (Some (timedelta_minutes 30)) now') "bearer")
  ∧ ∀ pw, 72 < length (encode_utf8 pw) →
      login SECRET_KEY db' (UserLogin.mk (UserCreate.username user) pw) now'
      = Raise ValueError.
Proof.
  intros Hinv Hreg. split.
  - rewrite (login_registered db user now salt r db') by assumption.
    apply register_user_Return in Hreg as (_ & Hlen & _ & _); [|apply Hinv].
    rewrite verify_password_digest by exact Hlen.
    rewrite bool_decide_eq_true_2 by reflexivity. reflexivity.
  - intros pw Hlen.
    rewrite (login_registered db user now salt r db') by assumption.
    rewrite verify_password_long by exact Hlen. reflexivity.
Qed.

(** X7: register, log in, ask who I am. After a successful registration,
    the token of a login with the registered credentials, presented to
    GET /users/me before the whole second to which the login time plus
    1800 seconds is cut down, gets back the very response the
    registration returned. *)
Theorem register_login_me db user now salt r db' t_login token t_me :
  registry_inv db →
  register_user db user now salt = (Return r, db') →
  login SECRET_KEY db' (UserLogin.mk (UserCreate.username user) (UserCreate.password user))
    t_login = Return token →
  (t_me < (t_login + 1800 * second) / second * second)%Z →
  users_me SECRET_KEY db' (access_token token) t_me = Return r.
Proof.
  intros Hinv Hreg ->%login_Return Hlt. cbn [access_token UserLogin.username].
  pose proof (registry_inv_register db user now salt Hinv) as Hinv'.
  rewrite Hreg in Hinv'. cbn [snd] in Hinv'.
  apply register_user_Return in Hreg as (_ & _ & -> & ->); [|apply Hinv].
  unfold users_me. rewrite verify_token_valid; [|reflexivity| |discriminate].
  - cbn [mbind outcome_bind claims_get]. rewrite decide_True by reflexivity.
    rewrite (get_current_user_present _ _
               (new_user_of db user
                  (bcrypt_kdf (encode_utf8 (UserCreate.password user)) salt) now)).
    + rewrite new_user_of_principal. apply UserResponse_init_principal.
    + exact Hinv'.
    + apply elem_of_app. right. left.
    + reflexivity.
  - rewrite expire_at_truthy by done. apply expired_false.
    replace (t_login + timedelta_minutes 30)%Z with (t_login + 1800 * second)%Z
      by reflexivity.
    exact Hlt.
Qed.


(** X9: how long a token lives. Over plain data (distinct keys, a string
    subject, no other registered claim than ["exp"], JSON values) a token
    issued at [t_issue] verifies, returning the subject, exactly while the
    clock is before the whole second to which [t_issue] plus its lifetime
    is cut down, and is answered with 401 from then on; the lifetime is
    [expires_delta] when that is given and not zero and 900 seconds when
    it is absent or zero, and [t_issue] plus the lifetime is within the
    range of [datetime]. *)
Theorem token_validity_window data delta t_issue t_verify :
  plain_data data = true →
  claims_get data "sub" ≠ VNone →
  let lifetime :=
    match delta with
    | Some d => if bool_decide (d = 0%Z) then (900 * second)%Z else d
    | None => (900 * second)%Z
    end in
  (datetime_min ≤ t_issue + lifetime ≤ datetime_max)%Z →
  verify_token SECRET_KEY (create_access_token SECRET_KEY data delta t_issue) t_verify
  = if bool_decide (t_verify < (t_issue + lifetime) / second * second)%Z
    then Return (claims_get data "sub")
    else Raise (HTTPException 401 "Could not validate credentials").
Proof.
  intros Hplain Hsub lifetime _.
  assert (expire_at delta t_issue = (t_issue + lifetime)%Z) as Hexp.
  { subst lifetime. destruct delta as [d|]; [|reflexivity]. unfold expire_at.
    destruct (decide (d = 0%Z)) as [->|Hd]; [reflexivity|].
    rewrite bool_decide_eq_true_2, bool_decide_eq_false_2 by assumption.
    reflexivity. }
  case_bool_decide as Hlt.
  - apply verify_token_valid; [assumption| |assumption].
    rewrite Hexp. apply expired_false, Hlt.
  - apply verify_token_expired. rewrite Hexp. apply expired_true. lia.
Qed.

(** X10: the token of a successful login has type "bearer" and verifies
    as the username of the request while the clock is before the whole
    second to which the login time plus 1800 seconds is cut down; from
    that second on it is answered with 401. *)
Theorem login_token_window db cred now token t_verify :
  login SECRET_KEY db cred now = Return token →
  token_type token = "bearer"
  ∧ verify_token SECRET_KEY (access_token token) t_verify
    = if bool_decide (t_verify < (now + 1800 * second) / second * second)%Z
      then Return (VStr (UserLogin.username cred))
      else Raise (HTTPException 401 "Could not validate credentials").
Proof.
  intros ->%login_Return. cbn [access_token token_type]. split; [reflexivity|].
  assert (expire_at (Some (timedelta_minutes 30)) now = (now + 1800 * second)%Z)
    as Hexp by reflexivity.
  case_bool_decide as Hlt.
  - rewrite verify_token_valid; [reflexivity|reflexivity| |discriminate].
    rewrite Hexp. apply expired_false, Hlt.
  - apply verify_token_expired. rewrite Hexp. apply expired_true. lia.
Qed.

(** X11: a token issued over data without a subject, or whose subject is
    [None], never verifies: at any time the answer is 401 "Could not
    validate credentials". *)
Theorem verify_token_missing_sub data delta t_issue t_verify :
  claims_get data "sub" = VNone →
  verify_token SECRET_KEY (create_access_token SECRET_KEY data delta t_issue) t_verify
  = Raise (HTTPException 401 "Could not validate credentials").
Proof.
  intros Hsub. unfold verify_token.
  destruct (jwt_decode _ _ _ _) as [err|decoded] eqn:Hdec; [reflexivity|].
  apply decode_access_token_sound in Hdec as [-> _].
  rewrite claims_get_json_sub, claims_get_update_ne, Hsub by discriminate.
  reflexivity.
Qed.

(** X12: a valid token whose subject is not the username of any stored
    principal gets 404 "User not found" from GET /users/me. *)
Theorem users_me_unknown_subject db sub delta t_issue t_verify :
  Forall is_principal db →
  (∀ u, u ∈ db → u !! "username" ≠ Some (VStr sub)) →
  (t_verify < expire_at delta t_issue / second * second)%Z →
  users_me SECRET_KEY db
    (create_access_token SECRET_KEY [("sub", VStr sub)] delta t_issue) t_verify
  = Raise (HTTPException 404 "User not found").
Proof.
  intros Hdb Habs Hlt. unfold users_me.
  rewrite verify_token_valid;
    [|reflexivity|apply expired_false, Hlt|discriminate].
  cbn [mbind outcome_bind claims_get]. rewrite decide_True by reflexivity.
  unfold get_current_user. rewrite find_user_absent by assumption. reflexivity.
Qed.

(** X13: a valid token whose subject is the username of a stored
    principal gets from GET /users/me the fields of that principal
    without its hashed password. *)
Theorem users_me_known_subject db u sub delta t_issue t_verify :
  registry_inv db →
  u ∈ db → u !! "username" = Some (VStr sub) →
  (t_verify < expire_at delta t_issue / second * second)%Z →
  ∃ r,
    users_me SECRET_KEY db
      (create_access_token SECRET_KEY [("sub", VStr sub)] delta t_issue) t_verify
    = Return r
    ∧ model_dump r = delete "hashed_password" u.
Proof.
  intros Hinv Hu Hname Hlt. unfold users_me.
  rewrite verify_token_valid;
    [|reflexivity|apply expired_false, Hlt|discriminate].
  cbn [mbind outcome_bind claims_get]. rewrite decide_True by reflexivity.
  rewrite (get_current_user_present db _ u) by assumption.
  assert (is_principal u) as (i & e & n & f & h & c & a & ->)
    by (eapply Forall_forall; [apply Hinv|exact Hu]).
  rewrite UserResponse_init_principal. eexists. split; [reflexivity|].
  apply model_dump_principal.
Qed.

(** X14: GET /users does not look the caller up. A valid token over
    plain data with a subject, registered or not, gets the whole
    registry: one response per principal, in insertion order, each the
    stored fields without the hashed password. *)
Theorem users_list_any_subject db data delta t_issue t_verify :
  Forall is_principal db →
  plain_data data = true →
  claims_get data "sub" ≠ VNone →
  (t_verify < expire_at delta t_issue / second * second)%Z →
  ∃ rs,
    users_list SECRET_KEY db (create_access_token SECRET_KEY data delta t_issue) t_verify
    = Return rs
    ∧ model_dump <$> rs = delete "hashed_password" <$> db
    ∧ length rs = length db.
Proof.
  intros Hdb Hplain Hsub Hlt. unfold users_list.
  rewrite verify_token_valid; [|assumption|apply expired_false, Hlt|assumption].
  cbn [mbind outcome_bind].
  destruct (list_users_total db (claims_get data "sub") Hdb) as [rs Hrs]. exists rs.
  split; [exact Hrs|].
  pose proof (list_users_Return db _ rs Hdb Hrs) as Heq.
  split; [exact Heq|].
  apply (f_equal length) in Heq. rewrite !length_fmap in Heq. exact Heq.
Qed.

(** X15: the caller of [create_access_token] cannot choose the expiry
    through [data]. Whatever [data] holds, under ["exp"] or elsewhere,
    the claims that [jwt.decode] returns from the token carry as ["exp"]
    the computed expiry in whole seconds. *)
Theorem create_access_token_overrides_exp data delta t_issue t_verify decoded :
  jwt_decode (create_access_token SECRET_KEY data delta t_issue)
             SECRET_KEY [ALGORITHM] t_verify = inr decoded →
  claims_get decoded "exp" = VInt (expire_at delta t_issue / second).
Proof.
  intros [-> _]%decode_access_token_sound.
  apply claims_get_json_exp, claims_get_update_eq.
Qed.

(** X16: a login succeeds only for a stored principal and its password.
    Whatever the registry holds, a returned token means that some stored
    user has the username of the request and a verifier that
    [verify_password] accepts for the password of the request. *)
Theorem login_sound db cred now token :
  login SECRET_KEY db cred now = Return token →
  ∃ u h, u ∈ db
    ∧ u !! "username" = Some (VStr (UserLogin.username cred))
    ∧ u !! "hashed_password" = Some (VBytes h)
    ∧ verify_password (UserLogin.password cred) h = Return true.
Proof.
  unfold login.
  destruct (find_user db _) as [[u|]|e] eqn:Hfind; cbn [mbind outcome_bind];
    [|discriminate..].
  apply find_user_Some in Hfind as (Hu & v & Hv & Heq).
  rewrite py_eq_str_r in Heq. apply bool_decide_eq_true_1 in Heq as ->.
  destruct (not_user _); [discriminate|].
  destruct (getitem u "hashed_password") as [h|e] eqn:Hh;
    cbn [mbind outcome_bind]; [|discriminate].
  unfold getitem in Hh.
  destruct (u !! "hashed_password") as [h'|] eqn:Hh'; [|discriminate].
  injection Hh as ->.
  destruct h as [| | |hashed| |]; try discriminate.
  destruct (verify_password _ hashed) as [[|]|e] eqn:Hverify;
    cbn [mbind outcome_bind]; [|discriminate..].
  intros _. exists u, hashed. repeat split; assumption.
Qed.

(** X19: a password of more than 72 bytes tells a stored username from
    an unknown one. Under the username of a stored principal the login
    raises [ValueError], which [login] does not catch; under a username
    that no principal has it gets 401 "Incorrect username or password". *)
Theorem oversize_password_login db u stored unknown pw now :
  registry_inv db →
  u ∈ db → u !! "username" = Some (VStr stored) →
  (∀ w, w ∈ db → w !! "username" ≠ Some (VStr unknown)) →
  72 < length (encode_utf8 pw) →
  login SECRET_KEY db (UserLogin.mk stored pw) now = Raise ValueError
  ∧ login SECRET_KEY db (UserLogin.mk unknown pw) now
    = Raise (HTTPException 401 "Incorrect username or password").
Proof.
  intros Hinv Hu Hname Habs Hlen. split.
  - assert (is_principal u) as Hpu
      by (eapply Forall_forall; [apply Hinv|exact Hu]).
    destruct (principal_hashed_password u Hpu) as [h Hh].
    rewrite (login_present SECRET_KEY db _ now u h) by assumption.
    cbn [UserLogin.password]. rewrite verify_password_long by exact Hlen.
    reflexivity.
  - apply login_unknown; [apply Hinv|exact Habs].
Qed.

(** X20: once the clock has reached the second of expiry of a token that
    [create_access_token] issued, over whatever data, [verify_token]
    answers 401 "Could not validate credentials" and so do GET /users/me
    and GET /users; over plain data [jwt.decode] raises
    [ExpiredSignatureError]. *)
Theorem expired_token_unauthorized db data delta t_issue t_verify :
  (expire_at delta t_issue / second * second ≤ t_verify)%Z →
  let token := create_access_token SECRET_KEY data delta t_issue in
  verify_token SECRET_KEY token t_verify
  = Raise (HTTPException 401 "Could not validate credentials")
  ∧ users_me SECRET_KEY db token t_verify
    = Raise (HTTPException 401 "Could not validate credentials")
  ∧ users_list SECRET_KEY db token t_verify
    = Raise (HTTPException 401 "Could not validate credentials")
  ∧ (plain_data data = true →
     jwt_decode token SECRET_KEY [ALGORITHM] t_verify = inl ExpiredSignatureError).
Proof.
  intros Hle token. subst token.
  pose proof (expired_true _ _ Hle) as Hexp.
  pose proof (verify_token_expired SECRET_KEY data delta t_issue t_verify Hexp) as Hv.
  split; [exact Hv|]. split; [|split].
  - unfold users_me. rewrite Hv. reflexivity.
  - unfold users_list. rewrite Hv. reflexivity.
  - intros Hplain. rewrite decode_access_token_plain, Hexp by assumption.
    reflexivity.
Qed.

End EndpointsMore.

(** ** The service run on concrete requests

    The statements below are closed: the libraries are [ToyBcrypt] and
    [ToyJWT], the key is the development default, the start-up salt is
    empty and the start-up clock reads 0. *)

#[local] Existing Instance ToyBcrypt.
#[local] Existing Instance ToyJWT.

Lemma registry_uniqueness_witness :
  let db := (register_user (users_db [] 0%Z) alice 5%Z []).2 in
  reachable [] 0%Z db ∧ unique_on "email" db ∧ unique_on "username" db.
Proof.
  intros db.
  assert (reachable [] 0%Z db) as Hr by apply reachable_register, reachable_init.
  split; [exact Hr|]. exact (registry_uniqueness [] 0%Z db Hr).
Defined.

Lemma failed_insert_atomicity_witness :
  let db := users_db [] 0%Z in
  let user := UserCreate.mk "admin@example.com" "bob" "pw" "Bob" in
  register_user db user 5%Z [] = (Raise (HTTPException 400 "User already exists"), db)
  ∧ length (register_user db user 5%Z []).2 = length db.
Proof.
  intros db user. apply (failed_insert_atomicity db user 5%Z []).
  - apply registry_inv_init.
  - eexists. split; [left|]. left. reflexivity.
Defined.


Lemma token_round_trip_witness :
  verify_token DEFAULT_SECRET_KEY
    (create_access_token DEFAULT_SECRET_KEY [("sub", VStr "alice")]
       (Some (1800 * second)%Z) 1000900000%Z) 1500000000%Z
  = Return (VStr "alice").
Proof.
  apply (proj1 (token_round_trip DEFAULT_SECRET_KEY "alice" (1800 * second)%Z
                  1000900000%Z 1500000000%Z eq_refl
                  ltac:(vm_compute; discriminate))).
  vm_compute. reflexivity.
Defined.

(** A token with one second to live, issued at 1000.9 s, is refused at
    1001.0 s, a tenth of a second after it was issued. *)
Lemma one_second_token_refused_early :
  let t_issue := 1000900000%Z in
  let ttl := second in
  let t_verify := 1001000000%Z in
  (0 < ttl)%Z ∧ (t_issue ≤ t_verify < t_issue + ttl)%Z
  ∧ verify_token DEFAULT_SECRET_KEY
      (create_access_token DEFAULT_SECRET_KEY [("sub", VStr "alice")] (Some ttl) t_issue)
      t_verify
    = Raise (HTTPException 401 "Could not validate credentials").
Proof.
  intros t_issue ttl t_verify. split; [reflexivity|].
  split; [subst t_issue ttl t_verify; unfold second; lia|].
  apply (token_refused_before_ttl DEFAULT_SECRET_KEY "alice" t_issue). reflexivity.
Qed.

Lemma default_ttl_policy_witness :
  ∃ token,
    login DEFAULT_SECRET_KEY (users_db [] 0%Z) (UserLogin.mk "admin" "admin123")
      1000900000%Z
    = Return token
    ∧ access_token token
      = jwt_encode [("sub", VStr "admin"); ("exp", VDatetime 2800900000%Z)]
          DEFAULT_SECRET_KEY ALGORITHM.
Proof.
  eexists. split; [reflexivity|].
  exact (proj1 (proj1 (default_ttl_policy DEFAULT_SECRET_KEY) (users_db [] 0%Z)
                  (UserLogin.mk "admin" "admin123") 1000900000%Z _ eq_refl)).
Defined.

Lemma verifier_secrecy_witness :
  let db := users_db [] 0%Z in
  let r := UserResponse.mk 2 "a@x.com" "alice" "Alice" 5%Z true in
  register_user db alice 5%Z [] = (Return r, (register_user db alice 5%Z []).2)
  ∧ ∃ u, u ∈ (register_user db alice 5%Z []).2
         ∧ model_dump r = delete "hashed_password" u
         ∧ model_dump r !! "hashed_password" = None.
Proof.
  intros db r. split; [reflexivity|].
  apply (proj1 (verifier_secrecy DEFAULT_SECRET_KEY db
                  (proj1 (registry_inv_init [] 0%Z))) alice 5%Z [] r).
  reflexivity.
Defined.

Lemma preseeded_admin_witness :
  let db := users_db [] 0%Z in
  let r := UserResponse.mk 2 "a@x.com" "alice" "Alice" 5%Z true in
  register_user db alice 5%Z [] = (Return r, (register_user db alice 5%Z []).2)
  ∧ UserResponse.id r = 2%Z
  ∧ length (register_user db alice 5%Z []).2 = 2%nat.
Proof.
  intros db r. split; [reflexivity|].
  apply (proj2 (proj2 (preseeded_admin [] 0%Z)) alice 5%Z [] r).
  reflexivity.
Defined.

(** On the start-up registry the response to alice's registration has an
    id, and it is not 1. *)
Lemma register_alice_id_not_1 :
  ∃ r db',
    register_user (users_db [] 0%Z) alice 5%Z [] = (Return r, db')
    ∧ UserResponse.id r = 2%Z ∧ UserResponse.id r ≠ 1%Z.
Proof. do 2 eexists. split; [reflexivity|]. split; [reflexivity|discriminate]. Qed.


(** A secret of 73 bytes. *)
Definition secret73 : string :=
  "aaaaaaaaaaaaaaaaaaaaaaaaaaaaaaaaaaaaaaaaaaaaaaaaaaaaaaaaaaaaaaaaaaaaaaaaa".


Lemma register_user_success_witness :
  register_user (users_db [] 0%Z) alice 5%Z []
  = (Return (UserResponse.mk 2 "a@x.com" "alice" "Alice" 5%Z true),
     users_db [] 0%Z
     ++ [principal_dict 2 "a@x.com" "alice" "Alice"
           (bcrypt_kdf (encode_utf8 "pw123") []) 5%Z true]).
Proof.
  apply (proj1 (register_user_success (users_db [] 0%Z) alice 5%Z []
                  (proj1 (registry_inv_init [] 0%Z))
                  ltac:(intros u ->%list_elem_of_singleton [Hc|Hc];
                        vm_compute in Hc; discriminate))).
  cbn. lia.
Defined.

Lemma register_again_conflict_witness :
  register_user db_alice (UserCreate.mk "a@x.com" "bob" "hunter2" "Bob") 6%Z []
  = (Raise (HTTPException 400 "User already exists"), db_alice).
Proof.
  apply (register_again_conflict (users_db [] 0%Z) alice
           (UserCreate.mk "a@x.com" "bob" "hunter2" "Bob") 5%Z [] 6%Z []
           (UserResponse.mk 2 "a@x.com" "alice" "Alice" 5%Z true) db_alice).
  - apply registry_inv_init.
  - reflexivity.
  - left. reflexivity.
Defined.

Lemma ids_sequential_witness :
  (∀ i u, db_alice !! i = Some u → u !! "id" = Some (VInt (Z.of_nat i + 1)))
  ∧ unique_on "id" db_alice.
Proof.
  apply (ids_sequential [] 0%Z db_alice).
  apply reachable_register, reachable_init.
Defined.

Lemma admin_identity_reserved_witness :
  register_user db_alice (UserCreate.mk "root@example.com" "admin" "x" "Root") 6%Z []
  = (Raise (HTTPException 400 "User already exists"), db_alice).
Proof.
  apply (admin_identity_reserved [] 0%Z db_alice).
  - apply reachable_register, reachable_init.
  - right. reflexivity.
Defined.

Lemma taken_identity_stays_taken_witness :
  let requests := [(UserCreate.mk "b@x.com" "bob" "hunter2" "Bob", 6%Z, [])] in
  register_user (register_all db_alice requests)
    (UserCreate.mk "alice@y.org" "alice" "x" "Alice Two") 7%Z []
  = (Raise (HTTPException 400 "User already exists"), register_all db_alice requests).
Proof.
  intros requests.
  apply (taken_identity_stays_taken db_alice
           (principal_dict 2 "a@x.com" "alice" "Alice"
              (bcrypt_kdf (encode_utf8 "pw123") []) 5%Z true)).
  - apply (registry_inv_register (users_db [] 0%Z) alice 5%Z []), registry_inv_init.
  - right. left.
  - right. reflexivity.
Defined.

Lemma admin_can_always_login_witness :
  login DEFAULT_SECRET_KEY db_alice (UserLogin.mk "admin" "admin123") 7%Z
  = Return (mkToken
      (create_access_token DEFAULT_SECRET_KEY [("sub", VStr "admin")]
         (Some (timedelta_minutes 30)) 7%Z) "bearer").
Proof.
  apply (admin_can_always_login DEFAULT_SECRET_KEY [] 0%Z db_alice 7%Z).
  apply reachable_register, reachable_init.
Defined.

Lemma register_then_login_witness :
  login DEFAULT_SECRET_KEY db_alice (UserLogin.mk "alice" "pw123") 9%Z
  = Return (mkToken
      (create_access_token DEFAULT_SECRET_KEY [("sub", VStr "alice")]
         (Some (timedelta_minutes 30)) 9%Z) "bearer")
  ∧ login DEFAULT_SECRET_KEY db_alice (UserLogin.mk "alice" secret73) 9%Z
    = Raise ValueError.
Proof.
  destruct (register_then_login DEFAULT_SECRET_KEY (users_db [] 0%Z) alice 5%Z []
              (UserResponse.mk 2 "a@x.com" "alice" "Alice" 5%Z true) db_alice 9%Z
              (registry_inv_init [] 0%Z) eq_refl) as [Hok Hlong].
  split; [exact Hok|]. apply Hlong. cbn. lia.
Defined.

Lemma register_login_me_witness :
  users_me DEFAULT_SECRET_KEY db_alice
    (create_access_token DEFAULT_SECRET_KEY [("sub", VStr "alice")]
       (Some (timedelta_minutes 30)) 1000900000%Z) 2799999999%Z
  = Return (UserResponse.mk 2 "a@x.com" "alice" "Alice" 5%Z true).
Proof.
  apply (register_login_me DEFAULT_SECRET_KEY (users_db [] 0%Z) alice 5%Z []
           (UserResponse.mk 2 "a@x.com" "alice" "Alice" 5%Z true) db_alice 1000900000%Z
           (mkToken
              (create_access_token DEFAULT_SECRET_KEY [("sub", VStr "alice")]
                 (Some (timedelta_minutes 30)) 1000900000%Z) "bearer") 2799999999%Z).
  - apply registry_inv_init.
  - reflexivity.
  - reflexivity.
  - reflexivity.
Defined.


Lemma token_validity_window_witness :
  verify_token DEFAULT_SECRET_KEY
    (create_access_token DEFAULT_SECRET_KEY
       [("sub", VStr "alice"); ("role", VStr "user")] (Some 500000%Z) 1000200000%Z)
    1000200000%Z
  = Raise (HTTPException 401 "Could not validate credentials").
Proof.
  apply (token_validity_window DEFAULT_SECRET_KEY
           [("sub", VStr "alice"); ("role", VStr "user")] (Some 500000%Z)
           1000200000%Z 1000200000%Z).
  - reflexivity.
  - discriminate.
  - vm_compute. split; discriminate.
Defined.

Lemma login_token_window_witness :
  let token :=
    mkToken
      (create_access_token DEFAULT_SECRET_KEY [("sub", VStr "admin")]
         (Some (timedelta_minutes 30)) 1000900000%Z) "bearer" in
  token_type token = "bearer"
  ∧ verify_token DEFAULT_SECRET_KEY (access_token token) 2800000000%Z
    = Raise (HTTPException 401 "Could not validate credentials").
Proof.
  intros token.
  apply (login_token_window DEFAULT_SECRET_KEY (users_db [] 0%Z)
           (UserLogin.mk "admin" "admin123") 1000900000%Z token 2800000000%Z).
  reflexivity.
Defined.

Lemma verify_token_missing_sub_witness :
  verify_token DEFAULT_SECRET_KEY
    (create_access_token DEFAULT_SECRET_KEY [("role", VStr "admin")] None 0%Z) 5%Z
  = Raise (HTTPException 401 "Could not validate credentials").
Proof.
  apply (verify_token_missing_sub DEFAULT_SECRET_KEY). reflexivity.
Defined.

Lemma users_me_unknown_subject_witness :
  users_me DEFAULT_SECRET_KEY (users_db [] 0%Z)
    (create_access_token DEFAULT_SECRET_KEY [("sub", VStr "ghost")] None 0%Z) 5%Z
  = Raise (HTTPException 404 "User not found").
Proof.
  apply (users_me_unknown_subject DEFAULT_SECRET_KEY (users_db [] 0%Z) "ghost" None 0%Z 5%Z).
  - apply registry_inv_init.
  - intros u ->%list_elem_of_singleton. vm_compute. discriminate.
  - reflexivity.
Defined.

Lemma users_me_known_subject_witness :
  ∃ r,
    users_me DEFAULT_SECRET_KEY (users_db [] 0%Z)
      (create_access_token DEFAULT_SECRET_KEY [("sub", VStr "admin")] None 0%Z) 5%Z
    = Return r
    ∧ model_dump r
      = delete "hashed_password"
          (principal_dict 1 "admin@example.com" "admin" "System Administrator"
             (bcrypt_kdf (encode_utf8 "admin123") []) 0%Z true).
Proof.
  apply (users_me_known_subject DEFAULT_SECRET_KEY (users_db [] 0%Z) _ "admin" None 0%Z 5%Z).
  - apply registry_inv_init.
  - left.
  - reflexivity.
  - reflexivity.
Defined.

Lemma users_list_any_subject_witness :
  ∃ rs,
    users_list DEFAULT_SECRET_KEY db_alice
      (create_access_token DEFAULT_SECRET_KEY [("sub", VStr "ghost")] None 0%Z) 5%Z
    = Return rs
    ∧ model_dump <$> rs = delete "hashed_password" <$> db_alice
    ∧ length rs = length db_alice.
Proof.
  apply (users_list_any_subject DEFAULT_SECRET_KEY db_alice
           [("sub", VStr "ghost")] None 0%Z 5%Z).
  - apply (registry_inv_register (users_db [] 0%Z) alice 5%Z []), registry_inv_init.
  - reflexivity.
  - discriminate.
  - reflexivity.
Defined.

Lemma create_access_token_overrides_exp_witness :
  claims_get
    (claims_json
       (claims_update "exp" (VDatetime (expire_at (Some second) 1000900000%Z))
          [("exp", VInt 9999999999); ("sub", VStr "alice")]))
    "exp"
  = VInt 1001.
Proof.
  apply (create_access_token_overrides_exp DEFAULT_SECRET_KEY
           [("exp", VInt 9999999999); ("sub", VStr "alice")] (Some second)
           1000900000%Z 1000950000%Z).
  reflexivity.
Defined.

Lemma login_sound_witness :
  ∃ u h, u ∈ users_db [] 0%Z
    ∧ u !! "username" = Some (VStr "admin")
    ∧ u !! "hashed_password" = Some (VBytes h)
    ∧ verify_password "admin123" h = Return true.
Proof.
  apply (login_sound DEFAULT_SECRET_KEY (users_db [] 0%Z)
           (UserLogin.mk "admin" "admin123") 1000%Z
           (mkToken
              (create_access_token DEFAULT_SECRET_KEY [("sub", VStr "admin")]
                 (Some (timedelta_minutes 30)) 1000%Z) "bearer")).
  reflexivity.
Defined.

Lemma oversize_password_login_witness :
  login DEFAULT_SECRET_KEY (users_db [] 0%Z) (UserLogin.mk "admin" secret73) 5%Z
  = Raise ValueError
  ∧ login DEFAULT_SECRET_KEY (users_db [] 0%Z) (UserLogin.mk "ghost" secret73) 5%Z
    = Raise (HTTPException 401 "Incorrect username or password").
Proof.
  apply (oversize_password_login DEFAULT_SECRET_KEY (users_db [] 0%Z)
           (principal_dict 1 "admin@example.com" "admin" "System Administrator"
              (bcrypt_kdf (encode_utf8 "admin123") []) 0%Z true)
           "admin" "ghost" secret73 5%Z).
  - apply registry_inv_init.
  - left.
  - reflexivity.
  - intros w ->%list_elem_of_singleton. vm_compute. discriminate.
  - cbn. lia.
Defined.

Lemma expired_token_unauthorized_witness :
  verify_token DEFAULT_SECRET_KEY
    (create_access_token DEFAULT_SECRET_KEY [("sub", VStr "alice")]
       (Some (1800 * second)%Z) 1000900000%Z) 2800000000%Z
  = Raise (HTTPException 401 "Could not validate credentials").
Proof.
  apply (expired_token_unauthorized DEFAULT_SECRET_KEY [] [("sub", VStr "alice")]
           (Some (1800 * second)%Z) 1000900000%Z 2800000000%Z).
  vm_compute. discriminate.
Defined.
